(** * KidsCodeQuiz: the data store of [database_manager.py]

    A shallow embedding of class [DatabaseManager]: the four tables of the
    SQLite file, the statements each method executes on its connection, the
    Python control flow around them ([try] / [except] / [finally]), and the
    properties of the store that follow.

    Conventions of the embedding.
    - A table is the list of its rows in storage order; an absent table and
      an empty one are not told apart, since the constructor runs
      [initialize_database] before any other statement.
    - [TIMESTAMP] values are integers (seconds); [CURRENT_TIMESTAMP] reads a
      clock of the environment, whose resolution is one second, so two
      readings can be equal.
    - Python [int] is [Z]; SQLite stores signed 64-bit integers, and the
      [sqlite3] binding raises [OverflowError] when a bound parameter does
      not fit.  Row ids are generated by AUTOINCREMENT and are not bounded
      here.
    - Python [str] is [string]: sequences of characters with codes 0..255.
    - Every method opens a connection of its own.  An INSERT or UPDATE opens
      a transaction on its connection (the implicit BEGIN of [sqlite3]) and
      takes the write lock of the file until [commit] or [close]; a write
      from another connection meanwhile fails with "database is locked".
    - [str(uuid.uuid4())] and the legacy JSON files are inputs of a call.
    - [print] is not modelled. *)

From Stdlib Require Import ZArith NArith List String Ascii Bool Lia Arith Sorted
  Permutation.
Import ListNotations.

Local Open Scope string_scope.
Local Open Scope Z_scope.

(** ** Python exceptions and results *)

Inductive exn : Type :=
| IntegrityError     (* sqlite3.IntegrityError: a UNIQUE constraint failed *)
| OperationalError   (* sqlite3.OperationalError: locked, no such column *)
| OverflowError      (* Python int too large to convert to SQLite INTEGER *)
| JSONDecodeError.   (* json.loads on a text that is no JSON array of strings *)

Inductive outcome (A : Type) : Type :=
| Ok (a : A)
| Raise (e : exn).

Arguments Ok {A} a.
Arguments Raise {A} e.

(** ** The [json] module on lists of strings

    [json_dumps] is [json.dumps] with its defaults ([ensure_ascii=True],
    separators [", "]) on a list of [str]; [json_loads] is [json.loads] on a
    text holding an array of strings, read one character at a time. *)

Module Json.

Definition dquote : ascii := ascii_of_N 34.
Definition backslash : ascii := ascii_of_N 92.

Definition str1 (c : ascii) : string := String c EmptyString.

Definition hexdigit (n : N) : ascii :=
  if (n <? 10)%N then ascii_of_N (48 + n) else ascii_of_N (87 + n).

(** The replacement of one character by [ESCAPE_ASCII]: everything outside
    [' '..'~'], the quote and the backslash are escaped. *)
Definition escape (c : ascii) : string :=
  let n := N_of_ascii c in
  if (n =? 34)%N then String backslash (str1 dquote)
  else if (n =? 92)%N then String backslash (str1 backslash)
  else if (n =? 10)%N then String backslash "n"
  else if (n =? 13)%N then String backslash "r"
  else if (n =? 9)%N then String backslash "t"
  else if (n =? 12)%N then String backslash "f"
  else if (n =? 8)%N then String backslash "b"
  else if ((32 <=? n) && (n <=? 126))%N then str1 c
  else String backslash
         ("u00" ++ String (hexdigit (n / 16)) (str1 (hexdigit (n mod 16)))).

Fixpoint escape_all (s : string) : string :=
  match s with
  | EmptyString => EmptyString
  | String c s' => escape c ++ escape_all s'
  end.

Definition encode_str (s : string) : string :=
  String dquote (escape_all s ++ str1 dquote).

Fixpoint encode_items (l : list string) : string :=
  match l with
  | [] => EmptyString
  | [s] => encode_str s
  | s :: l' => encode_str s ++ ", " ++ encode_items l'
  end.

Definition json_dumps (l : list string) : string :=
  "[" ++ encode_items l ++ "]".

Arguments json_dumps : simpl never.

(** The scanner of [json.loads], as a state machine over the characters. *)
Inductive pstate : Type :=
| PStart                                         (* before the bracket *)
| PFirst                                         (* after the bracket *)
| PStr (done : list string) (cur : string)       (* inside a string *)
| PEsc (done : list string) (cur : string)       (* after a backslash *)
| PHex (done : list string) (cur : string) (k : nat) (v : N)
| PAfter (done : list string)                    (* after a string *)
| PNext (done : list string)                     (* after a comma *)
| PEnd (done : list string).                     (* after the closing bracket *)

Definition is_ws (n : N) : bool :=
  ((n =? 32) || (n =? 9) || (n =? 10) || (n =? 13))%N.

Definition hexval (n : N) : option N :=
  if ((48 <=? n) && (n <=? 57))%N then Some (n - 48)%N
  else if ((97 <=? n) && (n <=? 102))%N then Some (n - 87)%N
  else if ((65 <=? n) && (n <=? 70))%N then Some (n - 55)%N
  else None.

Definition snoc (s : string) (c : ascii) : string := s ++ str1 c.

Definition pstep (st : pstate) (c : ascii) : option pstate :=
  let n := N_of_ascii c in
  match st with
  | PStart =>
      if is_ws n then Some PStart
      else if (n =? 91)%N then Some PFirst else None
  | PFirst =>
      if is_ws n then Some PFirst
      else if (n =? 34)%N then Some (PStr [] EmptyString)
      else if (n =? 93)%N then Some (PEnd []) else None
  | PStr done cur =>
      if (n =? 34)%N then Some (PAfter (done ++ [cur]))
      else if (n =? 92)%N then Some (PEsc done cur)
      else if (n <? 32)%N then None
      else Some (PStr done (snoc cur c))
  | PEsc done cur =>
      if ((n =? 34) || (n =? 92) || (n =? 47))%N then Some (PStr done (snoc cur c))
      else if (n =? 98)%N then Some (PStr done (snoc cur (ascii_of_N 8)))
      else if (n =? 102)%N then Some (PStr done (snoc cur (ascii_of_N 12)))
      else if (n =? 110)%N then Some (PStr done (snoc cur (ascii_of_N 10)))
      else if (n =? 114)%N then Some (PStr done (snoc cur (ascii_of_N 13)))
      else if (n =? 116)%N then Some (PStr done (snoc cur (ascii_of_N 9)))
      else if (n =? 117)%N then Some (PHex done cur 0 0%N)
      else None
  | PHex done cur k v =>
      match hexval n with
      | None => None
      | Some h =>
          let v' := (16 * v + h)%N in
          if Nat.eqb k 3
          then (if (v' <? 256)%N then Some (PStr done (snoc cur (ascii_of_N v')))
                else None)
          else Some (PHex done cur (S k) v')
      end
  | PAfter done =>
      if is_ws n then Some (PAfter done)
      else if (n =? 44)%N then Some (PNext done)
      else if (n =? 93)%N then Some (PEnd done) else None
  | PNext done =>
      if is_ws n then Some (PNext done)
      else if (n =? 34)%N then Some (PStr done EmptyString) else None
  | PEnd done =>
      if is_ws n then Some (PEnd done) else None
  end.

Fixpoint prun (st : pstate) (s : string) : option pstate :=
  match s with
  | EmptyString => Some st
  | String c s' =>
      match pstep st c with
      | Some st' => prun st' s'
      | None => None
      end
  end.

Definition json_loads (s : string) : option (list string) :=
  match prun PStart s with
  | Some (PEnd done) => Some done
  | _ => None
  end.

Arguments json_loads : simpl never.


End Json.

(** ** Rows and tables *)

Definition min_int64 : Z := - 2 ^ 63.
Definition max_int64 : Z := 2 ^ 63 - 1.

Definition fits_int64 (z : Z) : bool :=
  (min_int64 <=? z) && (z <=? max_int64).

Arguments fits_int64 : simpl never.

(** A row of [users].  [is_admin] holds 0 or 1 and is read with [bool]. *)
Record user_row : Type := mk_user {
  u_id : Z;
  u_username : string;
  u_password_hash : string;
  u_full_name : option string;
  u_parent_name : option string;
  u_dob : option string;
  u_class : option string;
  u_section : option string;
  u_school : option string;
  u_is_admin : bool;
  u_created_at : Z;
  u_last_login : option Z
}.

Record progress_row : Type := mk_progress {
  p_id : Z;
  p_user_id : Z;
  p_points : Z;
  p_completed_tutorials : string;
  p_completed_challenges : string;
  p_emoji_collection : string;
  p_last_updated : Z
}.

Record event_row : Type := mk_event {
  e_id : Z;
  e_user_id : Z;
  e_event_type : string;
  e_event_details : option string;
  e_timestamp : Z
}.

Record cert_row : Type := mk_cert {
  c_id : Z;
  c_user_id : Z;
  c_certificate_type : string;
  c_issue_date : Z;
  c_certificate_code : string;
  c_completed_date : option Z
}.

(** The database file: the four tables, the AUTOINCREMENT counter of each
    ([sqlite_sequence]), and whether [users] has the [is_admin] column (a
    file written by an older version has not). *)
Record db : Type := mk_db {
  is_admin_column : bool;
  users : list user_row;
  seq_users : Z;
  user_progress : list progress_row;
  seq_user_progress : Z;
  user_events : list event_row;
  seq_user_events : Z;
  certificates : list cert_row;
  seq_certificates : Z
}.

Definition empty_db : db := mk_db true [] 0 [] 0 [] 0 [] 0.

Definition with_users (d : db) (c : bool) (us : list user_row) (s : Z) : db :=
  mk_db c us s (user_progress d) (seq_user_progress d)
        (user_events d) (seq_user_events d)
        (certificates d) (seq_certificates d).

Definition with_progress (d : db) (ps : list progress_row) (s : Z) : db :=
  mk_db (is_admin_column d) (users d) (seq_users d) ps s
        (user_events d) (seq_user_events d)
        (certificates d) (seq_certificates d).

Definition with_events (d : db) (es : list event_row) (s : Z) : db :=
  mk_db (is_admin_column d) (users d) (seq_users d)
        (user_progress d) (seq_user_progress d) es s
        (certificates d) (seq_certificates d).

Definition with_certificates (d : db) (cs : list cert_row) (s : Z) : db :=
  mk_db (is_admin_column d) (users d) (seq_users d)
        (user_progress d) (seq_user_progress d)
        (user_events d) (seq_user_events d) cs s.

(** ** The environment of a call and the state of the engine *)

(** What a [progress_<username>.json] file holds; every key is optional. *)
Record progress_file : Type := mk_progress_file {
  pf_points : option Z;
  pf_completed_tutorials : option (list string);
  pf_completed_challenges : option (list string);
  pf_emoji_collection : option (list string)
}.

(** What a call reads from outside the store: the clock (the k-th reading of
    [CURRENT_TIMESTAMP]), the value [str(uuid.uuid4())] yields, and the
    legacy JSON files, already parsed ([None]: the file does not exist). *)
Record env : Type := mk_env {
  clock : nat -> Z;
  uuid4 : string;
  users_json : option (list (string * string));
  progress_json : string -> option progress_file
}.

(** The engine while a call runs.  [file] is the committed database.  [txn]
    is the open write transaction, if any: the connection that owns it (and
    with it the write lock of the file) and its working copy. *)
Record world : Type := mk_world {
  file : db;
  txn : option (nat * db);
  next_conn : nat;
  ticks : nat;
  w_env : env
}.

(** ** The monad of method bodies: state and exceptions *)

Definition M (A : Type) : Type := world -> outcome A * world.

Definition ret {A} (a : A) : M A := fun w => (Ok a, w).

Definition raise {A} (e : exn) : M A := fun w => (Raise e, w).

Definition bind {A B} (m : M A) (k : A -> M B) : M B :=
  fun w =>
    match m w with
    | (Ok a, w') => k a w'
    | (Raise e, w') => (Raise e, w')
    end.

Notation "x <- m ;; k" := (bind m (fun x => k))
  (at level 61, m at next level, right associativity).
Notation "m ;;; k" := (bind m (fun _ => k))
  (at level 61, right associativity).

(** [try: m except e: h e]. *)
Definition try_except {A} (m : M A) (h : exn -> M A) : M A :=
  fun w =>
    match m w with
    | (Ok a, w') => (Ok a, w')
    | (Raise e, w') => h e w'
    end.

(** [try: m finally: fin]: [fin] runs on every exit of [m]. *)
Definition try_finally {A} (m : M A) (fin : M unit) : M A :=
  fun w =>
    match m w with
    | (r, w') =>
        match fin w' with
        | (Ok _, w'') => (r, w'')
        | (Raise e, w'') => (Raise e, w'')
        end
    end.

(** Python truthiness of an [int]. *)
Definition truthy (z : Z) : bool := negb (z =? 0).

(** ** Connections *)

Definition set_txn (w : world) (t : option (nat * db)) : world :=
  mk_world (file w) t (next_conn w) (ticks w) (w_env w).

(** [self.connect()]: a new connection on every call. *)
Definition connect : M nat :=
  fun w => (Ok (next_conn w),
            mk_world (file w) (txn w) (S (next_conn w)) (ticks w) (w_env w)).

(** [self.disconnect(conn)]: closing rolls back what was not committed. *)
Definition disconnect (conn : nat) : M unit :=
  fun w =>
    match txn w with
    | Some (owner, _) =>
        if Nat.eqb owner conn then (Ok tt, set_txn w None) else (Ok tt, w)
    | None => (Ok tt, w)
    end.

(** [conn.commit()]. *)
Definition commit (conn : nat) : M unit :=
  fun w =>
    match txn w with
    | Some (owner, d) =>
        if Nat.eqb owner conn
        then (Ok tt, mk_world d None (next_conn w) (ticks w) (w_env w))
        else (Ok tt, w)
    | None => (Ok tt, w)
    end.

(** What a connection reads: its own uncommitted changes, else the file. *)
Definition view (conn : nat) (w : world) : db :=
  match txn w with
  | Some (owner, d) => if Nat.eqb owner conn then d else file w
  | None => file w
  end.

(** Binding the integer parameters of a statement. *)
Definition bind_ints (params : list Z) : M unit :=
  if forallb fits_int64 params then ret tt else raise OverflowError.

(** [cursor.execute] of a SELECT. *)
Definition execute_query {A} (conn : nat) (params : list Z)
    (q : db -> outcome A) : M A :=
  bind_ints params ;;;
  fun w => (q (view conn w), w).

(** [cursor.execute] of an INSERT or UPDATE: the binding opens a transaction
    when none is open, which takes the write lock; when another connection
    holds it the statement fails with "database is locked" (the wait of the
    busy timeout is not modelled). *)
Definition execute_dml {A} (conn : nat) (params : list Z)
    (stmt : db -> outcome (A * db)) : M A :=
  bind_ints params ;;;
  fun w =>
    match txn w with
    | Some (owner, d) =>
        if Nat.eqb owner conn
        then match stmt d with
             | Ok (a, d') => (Ok a, set_txn w (Some (conn, d')))
             | Raise e => (Raise e, w)
             end
        else (Raise OperationalError, w)
    | None =>
        match stmt (file w) with
        | Ok (a, d') => (Ok a, set_txn w (Some (conn, d')))
        | Raise e => (Raise e, set_txn w (Some (conn, file w)))
        end
    end.

(** [cursor.execute] of CREATE TABLE or ALTER TABLE: no transaction is opened
    for it; outside a transaction it is committed at once. *)
Definition execute_ddl (conn : nat) (stmt : db -> db) : M unit :=
  fun w =>
    match txn w with
    | Some (owner, d) =>
        if Nat.eqb owner conn
        then (Ok tt, set_txn w (Some (conn, stmt d)))
        else (Raise OperationalError, w)
    | None =>
        (Ok tt, mk_world (stmt (file w)) None (next_conn w) (ticks w) (w_env w))
    end.

(** One reading of [CURRENT_TIMESTAMP]. *)
Definition current_timestamp : M Z :=
  fun w => (Ok (clock (w_env w) (ticks w)),
            mk_world (file w) (txn w) (next_conn w) (S (ticks w)) (w_env w)).

Definition get_env : M env := fun w => (Ok (w_env w), w).

(** A call of a method on a store [d] in environment [e]. *)
Definition run {A} (e : env) (d : db) (m : M A) : outcome A * db :=
  let (r, w) := m (mk_world d None 0 0 e) in (r, file w).

(** ** SQL statements, as functions on the tables *)

Definition b2z (b : bool) : Z := if b then 1 else 0.

(** ORDER BY key DESC: largest key first.  SQLite leaves the order of rows
    with equal keys open; here they keep their storage order. *)
Fixpoint insert_desc {A} (key : A -> Z) (x : A) (l : list A) : list A :=
  match l with
  | [] => [x]
  | y :: l' =>
      if key y <=? key x then x :: y :: l' else y :: insert_desc key x l'
  end.

Definition order_by_desc {A} (key : A -> Z) (l : list A) : list A :=
  fold_right (insert_desc key) [] l.

(** LIMIT n: a negative [n] is no bound on the number of rows. *)
Definition limit_rows {A} (n : Z) (l : list A) : list A :=
  if n <? 0 then l else firstn (Z.to_nat n) l.

(** [cursor.fetchone()]. *)
Definition fetchone {A} (rows : list A) : option A := hd_error rows.

(** A statement that names the [is_admin] column fails when [users] has not
    got it. *)
Definition need_is_admin {A} (d : db) (r : outcome A) : outcome A :=
  if is_admin_column d then r else Raise OperationalError.

(** SELECT is_admin FROM users LIMIT 1 *)
Definition select_is_admin_probe (d : db) : outcome (list bool) :=
  need_is_admin d (Ok (limit_rows 1 (map u_is_admin (users d)))).

Definition set_is_admin (b : bool) (u : user_row) : user_row :=
  mk_user (u_id u) (u_username u) (u_password_hash u) (u_full_name u)
          (u_parent_name u) (u_dob u) (u_class u) (u_section u) (u_school u)
          b (u_created_at u) (u_last_login u).

(** CREATE TABLE IF NOT EXISTS ...: the tables of the model always exist. *)
Definition create_table_if_not_exists (d : db) : db := d.

(** ALTER TABLE users ADD COLUMN is_admin INTEGER DEFAULT 0 *)
Definition alter_add_is_admin (d : db) : db :=
  with_users d true (map (set_is_admin false) (users d)) (seq_users d).

(** SELECT COUNT( * ) FROM users WHERE is_admin = 1 *)
Definition count_admins (d : db) : outcome Z :=
  need_is_admin d (Ok (Z.of_nat (List.length (filter u_is_admin (users d))))).

(** SELECT id FROM users LIMIT 1 *)
Definition select_first_user_id (d : db) : outcome (list Z) :=
  Ok (limit_rows 1 (map u_id (users d))).

(** UPDATE users SET is_admin = ? WHERE id = ? *)
Definition update_is_admin (flag : bool) (user_id : Z) (d : db)
  : outcome (unit * db) :=
  need_is_admin d
    (Ok (tt, with_users d (is_admin_column d)
               (map (fun u => if u_id u =? user_id then set_is_admin flag u else u)
                    (users d))
               (seq_users d))).

(** SELECT COUNT( * ) FROM users *)
Definition count_users (d : db) : outcome Z :=
  Ok (Z.of_nat (List.length (users d))).

(** INSERT INTO users (username, password_hash, [profile columns,] is_admin);
    the result is [cursor.lastrowid].  [username] is UNIQUE. *)
Definition insert_user (now : Z) (username password_hash : string)
    (full_name parent_name dob class section school : option string)
    (is_admin : bool) (d : db) : outcome (Z * db) :=
  need_is_admin d
    (if existsb (fun u => String.eqb (u_username u) username) (users d)
     then Raise IntegrityError
     else
       let id := seq_users d + 1 in
       Ok (id, with_users d (is_admin_column d)
                 (users d ++
                  [mk_user id username password_hash full_name parent_name dob
                           class section school is_admin now None])
                 id)).

(** INSERT INTO user_progress (user_id) VALUES (?) *)
Definition insert_progress (now : Z) (user_id : Z) (d : db)
  : outcome (unit * db) :=
  let id := seq_user_progress d + 1 in
  Ok (tt, with_progress d
            (user_progress d ++ [mk_progress id user_id 0 "[]" "[]" "[]" now])
            id).

(** SELECT ... FROM users WHERE username = ? *)
Definition select_user_by_name (username : string) (d : db)
  : outcome (list user_row) :=
  need_is_admin d
    (Ok (filter (fun u => String.eqb (u_username u) username) (users d))).

(** SELECT ... FROM users WHERE id = ? *)
Definition select_user_by_id (user_id : Z) (d : db) : outcome (list user_row) :=
  need_is_admin d (Ok (filter (fun u => u_id u =? user_id) (users d))).

(** SELECT ... FROM users ORDER BY created_at DESC *)
Definition select_all_users (d : db) : outcome (list user_row) :=
  need_is_admin d (Ok (order_by_desc u_created_at (users d))).

(** UPDATE users SET last_login = CURRENT_TIMESTAMP WHERE id = ? *)
Definition update_last_login_stmt (now : Z) (user_id : Z) (d : db)
  : outcome (unit * db) :=
  Ok (tt, with_users d (is_admin_column d)
            (map (fun u =>
                    if u_id u =? user_id
                    then mk_user (u_id u) (u_username u) (u_password_hash u)
                           (u_full_name u) (u_parent_name u) (u_dob u)
                           (u_class u) (u_section u) (u_school u)
                           (u_is_admin u) (u_created_at u) (Some now)
                    else u)
                 (users d))
            (seq_users d)).

(** UPDATE users SET full_name = ?, ..., school = ? WHERE id = ? *)
Definition update_profile_stmt
    (full_name parent_name dob class section school : string)
    (user_id : Z) (d : db) : outcome (unit * db) :=
  Ok (tt, with_users d (is_admin_column d)
            (map (fun u =>
                    if u_id u =? user_id
                    then mk_user (u_id u) (u_username u) (u_password_hash u)
                           (Some full_name) (Some parent_name) (Some dob)
                           (Some class) (Some section) (Some school)
                           (u_is_admin u) (u_created_at u) (u_last_login u)
                    else u)
                 (users d))
            (seq_users d)).

(** UPDATE users SET password_hash = ? WHERE id = ? *)
Definition update_password_stmt (new_password_hash : string) (user_id : Z)
    (d : db) : outcome (unit * db) :=
  Ok (tt, with_users d (is_admin_column d)
            (map (fun u =>
                    if u_id u =? user_id
                    then mk_user (u_id u) (u_username u) new_password_hash
                           (u_full_name u) (u_parent_name u) (u_dob u)
                           (u_class u) (u_section u) (u_school u)
                           (u_is_admin u) (u_created_at u) (u_last_login u)
                    else u)
                 (users d))
            (seq_users d)).

(** SELECT points, completed_tutorials, completed_challenges,
    emoji_collection FROM user_progress WHERE user_id = ? *)
Definition select_progress (user_id : Z) (d : db)
  : outcome (list progress_row) :=
  Ok (filter (fun p => p_user_id p =? user_id) (user_progress d)).

(** UPDATE user_progress SET points = ?, completed_tutorials = ?,
    completed_challenges = ?, emoji_collection = ?,
    last_updated = CURRENT_TIMESTAMP WHERE user_id = ? *)
Definition update_progress_stmt (now : Z) (points : Z)
    (tutorials challenges emojis : string) (user_id : Z) (d : db)
  : outcome (unit * db) :=
  Ok (tt, with_progress d
            (map (fun p =>
                    if p_user_id p =? user_id
                    then mk_progress (p_id p) (p_user_id p) points tutorials
                           challenges emojis now
                    else p)
                 (user_progress d))
            (seq_user_progress d)).

(** INSERT INTO user_events (user_id, event_type, event_details) *)
Definition insert_event (now : Z) (user_id : Z) (event_type : string)
    (event_details : option string) (d : db) : outcome (unit * db) :=
  let id := seq_user_events d + 1 in
  Ok (tt, with_events d
            (user_events d ++ [mk_event id user_id event_type event_details now])
            id).

(** SELECT event_type, event_details, timestamp FROM user_events
    WHERE user_id = ? ORDER BY timestamp DESC LIMIT ? *)
Definition select_events (user_id limit : Z) (d : db)
  : outcome (list event_row) :=
  Ok (limit_rows limit
        (order_by_desc e_timestamp
           (filter (fun e => e_user_id e =? user_id) (user_events d)))).

(** INSERT INTO certificates (user_id, certificate_type, certificate_code);
    [certificate_code] is UNIQUE, [completed_date] is left NULL. *)
Definition insert_certificate (now : Z) (user_id : Z)
    (certificate_type certificate_code : string) (d : db)
  : outcome (unit * db) :=
  if existsb (fun c => String.eqb (c_certificate_code c) certificate_code)
             (certificates d)
  then Raise IntegrityError
  else
    let id := seq_certificates d + 1 in
    Ok (tt, with_certificates d
              (certificates d ++
               [mk_cert id user_id certificate_type now certificate_code None])
              id).

(** UPDATE certificates SET completed_date = CURRENT_TIMESTAMP
    WHERE certificate_code = ? *)
Definition update_completed_stmt (now : Z) (certificate_code : string) (d : db)
  : outcome (unit * db) :=
  Ok (tt, with_certificates d
            (map (fun c =>
                    if String.eqb (c_certificate_code c) certificate_code
                    then mk_cert (c_id c) (c_user_id c) (c_certificate_type c)
                           (c_issue_date c) (c_certificate_code c) (Some now)
                    else c)
                 (certificates d))
            (seq_certificates d)).

(** SELECT user_id, certificate_type FROM certificates
    WHERE certificate_code = ? *)
Definition select_cert_owner (certificate_code : string) (d : db)
  : outcome (list (Z * string)) :=
  Ok (map (fun c => (c_user_id c, c_certificate_type c))
        (filter (fun c => String.eqb (c_certificate_code c) certificate_code)
                (certificates d))).

(** SELECT ... FROM certificates WHERE user_id = ? ORDER BY issue_date DESC *)
Definition select_user_certificates (user_id : Z) (d : db)
  : outcome (list cert_row) :=
  Ok (order_by_desc c_issue_date
        (filter (fun c => c_user_id c =? user_id) (certificates d))).

(** SELECT ... FROM certificates c JOIN users u ON c.user_id = u.id
    WHERE c.certificate_code = ? *)
Definition select_cert_join_user (certificate_code : string) (d : db)
  : outcome (list (cert_row * user_row)) :=
  Ok (flat_map
        (fun c =>
           map (fun u => (c, u))
               (filter (fun u => u_id u =? c_user_id c) (users d)))
        (filter (fun c => String.eqb (c_certificate_code c) certificate_code)
                (certificates d))).

(** ** The methods of [DatabaseManager] *)

(** [profile_data]: a dict from field names to strings. *)
Definition profile := list (string * string).

(** [profile_data.get(key, '')] *)
Fixpoint dict_get (p : profile) (key : string) : string :=
  match p with
  | [] => EmptyString
  | (k, v) :: p' => if String.eqb k key then v else dict_get p' key
  end.

(** [_run_migrations(conn, cursor)] *)
Definition _run_migrations (conn : nat) : M unit :=
  (* Migration 1: add the is_admin column if it is missing *)
  try_except
    (execute_query conn [] select_is_admin_probe ;;; ret tt)
    (fun e =>
       match e with
       | OperationalError =>
           execute_ddl conn alter_add_is_admin ;;;
           commit conn
       | _ => raise e
       end) ;;;
  (* Migration 2: set one admin user if none exists *)
  admin_count <- execute_query conn [] count_admins ;;
  if admin_count =? 0 then
    rows <- execute_query conn [] select_first_user_id ;;
    match fetchone rows with
    | Some user_id =>
        execute_dml conn [user_id] (update_is_admin true user_id) ;;;
        commit conn
    | None => ret tt
    end
  else ret tt.

(** [initialize_database()] *)
Definition initialize_database : M unit :=
  conn <- connect ;;
  execute_ddl conn create_table_if_not_exists ;;;     (* users *)
  _run_migrations conn ;;;
  execute_ddl conn create_table_if_not_exists ;;;     (* user_progress *)
  execute_ddl conn create_table_if_not_exists ;;;     (* user_events *)
  execute_ddl conn create_table_if_not_exists ;;;     (* certificates *)
  commit conn ;;;
  disconnect conn.

(** [log_event(user_id, event_type, event_details=None)]: it opens a
    connection of its own, and swallows every exception. *)
Definition log_event (user_id : Z) (event_type : string)
    (event_details : option string) : M unit :=
  conn <- connect ;;
  try_finally
    (try_except
       (now <- current_timestamp ;;
        execute_dml conn [user_id]
          (insert_event now user_id event_type event_details) ;;;
        commit conn)
       (fun _ => ret tt))
    (disconnect conn).

(** [add_user(username, password_hash, profile_data=None, is_admin=False)].
    [log_event] is called before the commit: it runs on a connection of its
    own while the transaction of [conn] is open. *)
Definition add_user (username password_hash : string)
    (profile_data : option profile) (is_admin : bool) : M (option Z) :=
  conn <- connect ;;
  try_finally
    (try_except
       (now <- current_timestamp ;;
        user_id <-
          match profile_data with
          | Some ((_ :: _) as p) =>
              execute_dml conn [b2z is_admin]
                (insert_user now username password_hash
                   (Some (dict_get p "full_name"))
                   (Some (dict_get p "parent_name"))
                   (Some (dict_get p "dob"))
                   (Some (dict_get p "class"))
                   (Some (dict_get p "section"))
                   (Some (dict_get p "school"))
                   is_admin)
          | _ =>
              execute_dml conn [b2z is_admin]
                (insert_user now username password_hash
                   None None None None None None is_admin)
          end ;;
        (* an empty progress record for the user *)
        now' <- current_timestamp ;;
        execute_dml conn [user_id] (insert_progress now' user_id) ;;;
        log_event user_id "user_created"
          (Some ("User account created for " ++ username)) ;;;
        commit conn ;;;
        ret (Some user_id))
       (fun e =>
          match e with
          | IntegrityError => ret None       (* username already exists *)
          | _ => raise e
          end))
    (disconnect conn).

(** The dict [get_user] returns. *)
Record user_dict : Type := mk_user_dict {
  ud_id : Z;
  ud_username : string;
  ud_password_hash : string;
  ud_full_name : option string;
  ud_parent_name : option string;
  ud_dob : option string;
  ud_class : option string;
  ud_section : option string;
  ud_school : option string;
  ud_is_admin : bool
}.

(** [get_user(username)] *)
Definition get_user (username : string) : M (option user_dict) :=
  conn <- connect ;;
  try_finally
    (rows <- execute_query conn [] (select_user_by_name username) ;;
     match fetchone rows with
     | Some u =>
         ret (Some (mk_user_dict (u_id u) (u_username u) (u_password_hash u)
                      (u_full_name u) (u_parent_name u) (u_dob u) (u_class u)
                      (u_section u) (u_school u) (u_is_admin u)))
     | None => ret None
     end)
    (disconnect conn).

(** [update_last_login(user_id)] *)
Definition update_last_login (user_id : Z) : M unit :=
  conn <- connect ;;
  try_finally
    (now <- current_timestamp ;;
     execute_dml conn [user_id] (update_last_login_stmt now user_id) ;;;
     commit conn)
    (disconnect conn).

(** The dict [get_user_progress] returns. *)
Record progress_dict : Type := mk_progress_dict {
  pd_points : Z;
  pd_completed_tutorials : list string;
  pd_completed_challenges : list string;
  pd_emoji_collection : list string
}.

Definition json_loads (s : string) : M (list string) :=
  match Json.json_loads s with
  | Some l => ret l
  | None => raise JSONDecodeError
  end.

(** [get_user_progress(user_id)] *)
Definition get_user_progress (user_id : Z) : M progress_dict :=
  conn <- connect ;;
  try_finally
    (rows <- execute_query conn [user_id] (select_progress user_id) ;;
     match fetchone rows with
     | Some progress =>
         tutorials <- json_loads (p_completed_tutorials progress) ;;
         challenges <- json_loads (p_completed_challenges progress) ;;
         emojis <- json_loads (p_emoji_collection progress) ;;
         ret (mk_progress_dict (p_points progress) tutorials challenges emojis)
     | None => ret (mk_progress_dict 0 [] [] [])
     end)
    (disconnect conn).

(** [update_user_progress(user_id, points, completed_tutorials,
    completed_challenges, emoji_collection)] *)
Definition update_user_progress (user_id points : Z)
    (completed_tutorials completed_challenges emoji_collection : list string)
  : M bool :=
  conn <- connect ;;
  try_finally
    (try_except
       (now <- current_timestamp ;;
        execute_dml conn [points; user_id]
          (update_progress_stmt now points
             (Json.json_dumps completed_tutorials)
             (Json.json_dumps completed_challenges)
             (Json.json_dumps emoji_collection)
             user_id) ;;;
        commit conn ;;;
        ret true)
       (fun _ => ret false))
    (disconnect conn).

(** One entry of the list [get_user_events] returns. *)
Record event_dict : Type := mk_event_dict {
  ed_event_type : string;
  ed_event_details : option string;
  ed_timestamp : Z
}.

(** [get_user_events(user_id, limit=50)] *)
Definition get_user_events (user_id limit : Z) : M (list event_dict) :=
  conn <- connect ;;
  try_finally
    (events <- execute_query conn [user_id; limit]
                 (select_events user_id limit) ;;
     ret (map (fun event =>
                 mk_event_dict (e_event_type event) (e_event_details event)
                               (e_timestamp event))
              events))
    (disconnect conn).

(** [create_certificate(user_id, certificate_type)] *)
Definition create_certificate (user_id : Z) (certificate_type : string)
  : M (option string) :=
  e <- get_env ;;
  let certificate_code := uuid4 e in
  conn <- connect ;;
  try_finally
    (try_except
       (now <- current_timestamp ;;
        execute_dml conn [user_id]
          (insert_certificate now user_id certificate_type certificate_code) ;;;
        commit conn ;;;
        log_event user_id "certificate_created"
          (Some ("Certificate of type '" ++ certificate_type ++
                 "' created with code " ++ certificate_code)) ;;;
        ret (Some certificate_code))
       (fun _ => ret None))
    (disconnect conn).

(** [complete_certificate(certificate_code)] *)
Definition complete_certificate (certificate_code : string) : M bool :=
  conn <- connect ;;
  try_finally
    (try_except
       (now <- current_timestamp ;;
        execute_dml conn []
          (update_completed_stmt now certificate_code) ;;;
        commit conn ;;;
        (* the user id of the certificate *)
        rows <- execute_query conn [] (select_cert_owner certificate_code) ;;
        match fetchone rows with
        | Some (user_id, cert_type) =>
            log_event user_id "certificate_completed"
              (Some ("Certificate of type '" ++ cert_type ++ "' with code " ++
                     certificate_code ++ " completed"))
        | None => ret tt
        end ;;;
        ret true)
       (fun _ => ret false))
    (disconnect conn).

(** One entry of the list [get_user_certificates] returns. *)
Record cert_dict : Type := mk_cert_dict {
  cd_certificate_type : string;
  cd_issue_date : Z;
  cd_certificate_code : string;
  cd_completed_date : option Z;
  cd_is_completed : bool
}.

(** [x is not None] *)
Definition is_not_none {A} (x : option A) : bool :=
  match x with Some _ => true | None => false end.

(** [get_user_certificates(user_id)] *)
Definition get_user_certificates (user_id : Z) : M (list cert_dict) :=
  conn <- connect ;;
  try_finally
    (certs <- execute_query conn [user_id] (select_user_certificates user_id) ;;
     ret (map (fun cert =>
                 mk_cert_dict (c_certificate_type cert) (c_issue_date cert)
                   (c_certificate_code cert) (c_completed_date cert)
                   (is_not_none (c_completed_date cert)))
              certs))
    (disconnect conn).

(** [x or ''] on a nullable text. *)
Definition or_empty (x : option string) : string :=
  match x with Some s => s | None => EmptyString end.

(** The dict [verify_certificate] returns for a certificate it finds. *)
Record verified : Type := mk_verified {
  v_certificate_type : string;
  v_issue_date : Z;
  v_completed_date : option Z;
  v_username : string;
  v_profile_data : profile;
  v_user_id : Z;
  v_is_completed : bool
}.

(** What [verify_certificate] returns: the dict above with [is_valid] true,
    or the one-key dict with [is_valid] false. *)
Inductive verification : Type :=
| Valid (v : verified)
| NotValid.

Definition is_valid (r : verification) : bool :=
  match r with Valid _ => true | NotValid => false end.

(** [verify_certificate(certificate_code)] *)
Definition verify_certificate (certificate_code : string) : M verification :=
  conn <- connect ;;
  try_finally
    (rows <- execute_query conn [] (select_cert_join_user certificate_code) ;;
     match fetchone rows with
     | Some (c, u) =>
         let profile_data :=
           [("full_name", or_empty (u_full_name u));
            ("parent_name", or_empty (u_parent_name u));
            ("dob", or_empty (u_dob u));
            ("class", or_empty (u_class u));
            ("section", or_empty (u_section u));
            ("school", or_empty (u_school u))] in
         ret (Valid (mk_verified (c_certificate_type c) (c_issue_date c)
                       (c_completed_date c) (u_username u) profile_data
                       (u_id u) (is_not_none (c_completed_date c))))
     | None => ret NotValid
     end)
    (disconnect conn).

(** The dict [get_all_users] and [get_user_by_id] return for a user. *)
Record admin_user_dict : Type := mk_admin_user_dict {
  ad_id : Z;
  ad_username : string;
  ad_full_name : option string;
  ad_parent_name : option string;
  ad_dob : option string;
  ad_class : option string;
  ad_section : option string;
  ad_school : option string;
  ad_is_admin : bool;
  ad_created_at : Z;
  ad_last_login : option Z
}.

Definition admin_dict_of (u : user_row) : admin_user_dict :=
  mk_admin_user_dict (u_id u) (u_username u) (u_full_name u) (u_parent_name u)
    (u_dob u) (u_class u) (u_section u) (u_school u) (u_is_admin u)
    (u_created_at u) (u_last_login u).

(** [get_all_users()] *)
Definition get_all_users : M (list admin_user_dict) :=
  conn <- connect ;;
  try_finally
    (rows <- execute_query conn [] select_all_users ;;
     ret (map admin_dict_of rows))
    (disconnect conn).

(** [update_user_profile(user_id, profile_data)] *)
Definition update_user_profile (user_id : Z) (profile_data : profile) : M bool :=
  conn <- connect ;;
  try_finally
    (try_except
       (execute_dml conn [user_id]
          (update_profile_stmt
             (dict_get profile_data "full_name")
             (dict_get profile_data "parent_name")
             (dict_get profile_data "dob")
             (dict_get profile_data "class")
             (dict_get profile_data "section")
             (dict_get profile_data "school")
             user_id) ;;;
        commit conn ;;;
        ret true)
       (fun _ => ret false))
    (disconnect conn).

(** [set_admin_status(user_id, is_admin)] *)
Definition set_admin_status (user_id : Z) (is_admin : bool) : M bool :=
  conn <- connect ;;
  try_finally
    (try_except
       (execute_dml conn [b2z is_admin; user_id]
          (update_is_admin is_admin user_id) ;;;
        commit conn ;;;
        ret true)
       (fun _ => ret false))
    (disconnect conn).

(** [get_user_by_id(user_id)] *)
Definition get_user_by_id (user_id : Z) : M (option admin_user_dict) :=
  conn <- connect ;;
  try_finally
    (rows <- execute_query conn [user_id] (select_user_by_id user_id) ;;
     match fetchone rows with
     | Some u => ret (Some (admin_dict_of u))
     | None => ret None
     end)
    (disconnect conn).

(** [reset_user_password(user_id, new_password_hash)] *)
Definition reset_user_password (user_id : Z) (new_password_hash : string)
  : M bool :=
  conn <- connect ;;
  try_finally
    (try_except
       (execute_dml conn [user_id]
          (update_password_stmt new_password_hash user_id) ;;;
        commit conn ;;;
        log_event user_id "password_reset"
          (Some "Password was reset by administrator") ;;;
        ret true)
       (fun _ => ret false))
    (disconnect conn).

(** [for x in xs: body x] *)
Fixpoint for_each {A} (xs : list A) (body : A -> M unit) : M unit :=
  match xs with
  | [] => ret tt
  | x :: xs' => body x ;;; for_each xs' body
  end.

(** [d.get(key, default)] on an optional key. *)
Definition get_or {A} (x : option A) (default : A) : A :=
  match x with Some a => a | None => default end.

(** [migrate_data_from_json()] *)
Definition migrate_data_from_json : M bool :=
  e <- get_env ;;
  match users_json e with
  | Some users_data =>
      try_except
        (for_each users_data
           (fun '(username, password) =>
              user_id <- add_user username password None false ;;
              match user_id with
              | Some id =>
                  if truthy id then
                    match progress_json e username with
                    | Some progress_data =>
                        update_user_progress id
                          (get_or (pf_points progress_data) 0)
                          (get_or (pf_completed_tutorials progress_data) [])
                          (get_or (pf_completed_challenges progress_data) [])
                          (get_or (pf_emoji_collection progress_data) []) ;;;
                        ret tt
                    | None => ret tt
                    end
                  else ret tt
              | None => ret tt
              end) ;;;
         ret true)
        (fun _ => ret false)
  | None => ret false
  end.

(** [migrate_from_json_if_needed()], the function of the module. *)
Definition migrate_from_json_if_needed : M unit :=
  try_except
    (initialize_database ;;;                    (* DatabaseManager() *)
     conn <- connect ;;
     try_finally
       (user_count <- execute_query conn [] count_users ;;
        if user_count =? 0
        then migrate_data_from_json ;;; ret tt
        else ret tt)
       (disconnect conn))
    (fun _ => ret tt).

(** ** Calls and histories *)

(** A call of the store's interface. *)
Inductive call : Type :=
| AddUser (username password_hash : string) (profile_data : option profile)
          (is_admin : bool)
| GetUser (username : string)
| UpdateLastLogin (user_id : Z)
| GetUserProgress (user_id : Z)
| UpdateUserProgress (user_id points : Z)
    (completed_tutorials completed_challenges emoji_collection : list string)
| LogEvent (user_id : Z) (event_type : string) (event_details : option string)
| GetUserEvents (user_id limit : Z)
| CreateCertificate (user_id : Z) (certificate_type : string)
| CompleteCertificate (certificate_code : string)
| GetUserCertificates (user_id : Z)
| VerifyCertificate (certificate_code : string)
| GetAllUsers
| UpdateUserProfile (user_id : Z) (profile_data : profile)
| SetAdminStatus (user_id : Z) (is_admin : bool)
| GetUserById (user_id : Z)
| ResetUserPassword (user_id : Z) (new_password_hash : string)
| InitializeDatabase
| MigrateDataFromJson
| MigrateFromJsonIfNeeded.

(** The state of the engine after a computation, whatever it returned. *)
Definition final {A} (m : M A) (w : world) : world := snd (m w).

(** The engine after a call. *)
Definition perform (c : call) : world -> world :=
  match c with
  | AddUser u p pd a => final (add_user u p pd a)
  | GetUser u => final (get_user u)
  | UpdateLastLogin uid => final (update_last_login uid)
  | GetUserProgress uid => final (get_user_progress uid)
  | UpdateUserProgress uid pts t c em =>
      final (update_user_progress uid pts t c em)
  | LogEvent uid ty det => final (log_event uid ty det)
  | GetUserEvents uid limit => final (get_user_events uid limit)
  | CreateCertificate uid ty => final (create_certificate uid ty)
  | CompleteCertificate code => final (complete_certificate code)
  | GetUserCertificates uid => final (get_user_certificates uid)
  | VerifyCertificate code => final (verify_certificate code)
  | GetAllUsers => final get_all_users
  | UpdateUserProfile uid pd => final (update_user_profile uid pd)
  | SetAdminStatus uid a => final (set_admin_status uid a)
  | GetUserById uid => final (get_user_by_id uid)
  | ResetUserPassword uid h => final (reset_user_password uid h)
  | InitializeDatabase => final initialize_database
  | MigrateDataFromJson => final migrate_data_from_json
  | MigrateFromJsonIfNeeded => final migrate_from_json_if_needed
  end.

(** The store after a call made in environment [e]. *)
Definition exec (e : env) (c : call) (d : db) : db :=
  file (perform c (mk_world d None 0 0 e)).

(** The store at the end of a history of calls, each call in its own
    environment. *)
Fixpoint exec_all (h : list (env * call)) (d : db) : db :=
  match h with
  | [] => d
  | (e, c) :: h' => exec_all h' (exec e c d)
  end.

(** ** What the calls leave in the store *)

(** The row [add_user] inserts into [users]. *)
Definition new_user_row (now id : Z) (username password_hash : string)
    (profile_data : option profile) (is_admin : bool) : user_row :=
  match profile_data with
  | Some ((_ :: _) as p) =>
      mk_user id username password_hash
        (Some (dict_get p "full_name")) (Some (dict_get p "parent_name"))
        (Some (dict_get p "dob")) (Some (dict_get p "class"))
        (Some (dict_get p "section")) (Some (dict_get p "school"))
        is_admin now None
  | _ =>
      mk_user id username password_hash None None None None None None
        is_admin now None
  end.

(** The store [add_user] leaves when it creates a user: the user row and its
    empty progress row; no event row (see [add_user_run]). *)
Definition added_user (e : env) (d : db) (username password_hash : string)
    (profile_data : option profile) (is_admin : bool) : db :=
  mk_db (is_admin_column d)
    (users d ++
     [new_user_row (clock e 0%nat) (seq_users d + 1) username password_hash
        profile_data is_admin])
    (seq_users d + 1)
    (user_progress d ++
     [mk_progress (seq_user_progress d + 1) (seq_users d + 1) 0 "[]" "[]" "[]"
        (clock e 1%nat)])
    (seq_user_progress d + 1)
    (user_events d) (seq_user_events d)
    (certificates d) (seq_certificates d).

(** The store after a successful insert into [user_events]; nothing is
    stored when [user_id] does not fit. *)
Definition logged (now : Z) (d : db) (user_id : Z) (event_type : string)
    (event_details : option string) : db :=
  if fits_int64 user_id
  then mk_db (is_admin_column d) (users d) (seq_users d)
         (user_progress d) (seq_user_progress d)
         (user_events d ++
          [mk_event (seq_user_events d + 1) user_id event_type event_details now])
         (seq_user_events d + 1)
         (certificates d) (seq_certificates d)
  else d.

(** What the UPDATE of [complete_certificate] makes of a row. *)
Definition completed_at (now : Z) (code : string) (c : cert_row) : cert_row :=
  if String.eqb (c_certificate_code c) code
  then mk_cert (c_id c) (c_user_id c) (c_certificate_type c) (c_issue_date c)
         (c_certificate_code c) (Some now)
  else c.

(** Migration 1 on a store: the column is added where it is missing. *)
Definition migration1 (d : db) : db :=
  if is_admin_column d then d else alter_add_is_admin d.

(** The user Migration 2 promotes. *)
Definition promote (user_id : Z) (d : db) : db :=
  with_users d (is_admin_column d)
    (map (fun u => if u_id u =? user_id then set_is_admin true u else u)
         (users d))
    (seq_users d).


(** The number of users with [is_admin = 1]; a table without the column has
    none. *)
Definition admin_count (d : db) : nat :=
  if is_admin_column d
  then List.length (filter u_is_admin (users d))
  else 0%nat.

(** ** Orders of timestamps *)

(** Timestamps from the newest to the oldest; equal neighbours are allowed. *)
Definition newest_first (ts : list Z) : Prop := Sorted Z.ge ts.


(** ** The life of a certificate *)






(** ** The invariant of the store *)

(** What holds of the store after its initialization and every later call:
    [users] has the [is_admin] column, usernames and user ids are distinct,
    no id is beyond the AUTOINCREMENT counter, every progress row is of a
    user id that has been allocated, and these ids are 64-bit integers. *)
Record store_ok (d : db) : Prop := {
  ok_column : is_admin_column d = true;
  ok_usernames : NoDup (map u_username (users d));
  ok_user_ids : NoDup (map u_id (users d));
  ok_allocated : Forall (fun u => u_id u <= seq_users d) (users d);
  ok_user_ids_fit : Forall (fun u => fits_int64 (u_id u) = true) (users d);
  ok_progress : Forall (fun p => p_user_id p <= seq_users d) (user_progress d);
  ok_progress_fit :
    Forall (fun p => fits_int64 (p_user_id p) = true) (user_progress d)
}.

(** ** Properties that every statement keeps *)

(** [P] holds of the file and of the working copy of the open transaction. *)
Definition winv (P : db -> Prop) (w : world) : Prop :=
  P (file w) /\ forall o c, txn w = Some (o, c) -> P c.

(** A computation keeps [P], in whatever state of the engine it starts. *)
Definition keeps (P : db -> Prop) {A} (m : M A) : Prop :=
  forall w, winv P w -> winv P (snd (m w)).

(** A statement keeps [P] when it succeeds. *)
Definition stmt_keeps (P : db -> Prop) {A} (s : db -> outcome (A * db))
  : Prop :=
  forall d a d', P d -> s d = Ok (a, d') -> P d'.

(** The statements of each table keep [P]. *)
Record users_stmts_keep (P : db -> Prop) : Prop := {
  k_alter : forall d, P d -> P (alter_add_is_admin d);
  k_update_is_admin : forall b uid, stmt_keeps P (update_is_admin b uid);
  k_update_last_login : forall now uid,
      stmt_keeps P (update_last_login_stmt now uid);
  k_update_profile : forall f1 f2 f3 f4 f5 f6 uid,
      stmt_keeps P (update_profile_stmt f1 f2 f3 f4 f5 f6 uid);
  k_update_password : forall h uid, stmt_keeps P (update_password_stmt h uid)
}.

Definition progress_stmts_keep (P : db -> Prop) : Prop :=
  forall now pts t c em uid,
    stmt_keeps P (update_progress_stmt now pts t c em uid).

(** The two inserts of [add_user], each on its own, keep [P]. *)
Definition insert_user_keeps (P : db -> Prop) : Prop :=
  forall now u p f1 f2 f3 f4 f5 f6 a,
    stmt_keeps P (insert_user now u p f1 f2 f3 f4 f5 f6 a).

Definition insert_progress_keeps (P : db -> Prop) : Prop :=
  forall now uid, stmt_keeps P (insert_progress now uid).

Definition events_stmts_keep (P : db -> Prop) : Prop :=
  forall now uid ty det, stmt_keeps P (insert_event now uid ty det).

Record cert_stmts_keep (P : db -> Prop) : Prop := {
  k_insert_certificate : forall now uid ty code,
      stmt_keeps P (insert_certificate now uid ty code);
  k_update_completed : forall now code,
      stmt_keeps P (update_completed_stmt now code)
}.

(** ** What the lookups return, and what stays of a row *)

(** The dicts the lookups build from a row. *)
Definition user_dict_of (u : user_row) : user_dict :=
  mk_user_dict (u_id u) (u_username u) (u_password_hash u) (u_full_name u)
    (u_parent_name u) (u_dob u) (u_class u) (u_section u) (u_school u)
    (u_is_admin u).

Definition cert_dict_of (c : cert_row) : cert_dict :=
  mk_cert_dict (c_certificate_type c) (c_issue_date c) (c_certificate_code c)
    (c_completed_date c) (is_not_none (c_completed_date c)).

Definition event_dict_of (ev : event_row) : event_dict :=
  mk_event_dict (e_event_type ev) (e_event_details ev) (e_timestamp ev).

(** What the UPDATE of [update_last_login] makes of a row. *)
Definition logged_in (now : Z) (uid : Z) (u : user_row) : user_row :=
  if u_id u =? uid
  then mk_user (u_id u) (u_username u) (u_password_hash u) (u_full_name u)
         (u_parent_name u) (u_dob u) (u_class u) (u_section u) (u_school u)
         (u_is_admin u) (u_created_at u) (Some now)
  else u.

(** The profile column [add_user] stores for a key: NULL when no profile or
    an empty one was given, else the value of the key, [''] when missing. *)
Definition stored_profile_field (profile_data : option profile) (key : string)
  : option string :=
  match profile_data with
  | Some ((_ :: _) as p) => Some (dict_get p key)
  | _ => None
  end.

(** What identifies a user row for good: id, username and creation time. *)
Definition user_key (u : user_row) : Z * string * Z :=
  (u_id u, u_username u, u_created_at u).

(** Every user has its progress row: the progress rows are of the user ids,
    one each, in the order of the users. *)
Definition progress_per_user (d : db) : Prop :=
  map p_user_id (user_progress d) = map u_id (users d).

(** The body of the loop of [migrate_data_from_json]. *)
Definition import_user (e : env) (entry : string * string) : M unit :=
  let '(username, password) := entry in
  user_id <- add_user username password None false ;;
  match user_id with
  | Some id =>
      if truthy id then
        match progress_json e username with
        | Some progress_data =>
            update_user_progress id
              (get_or (pf_points progress_data) 0)
              (get_or (pf_completed_tutorials progress_data) [])
              (get_or (pf_completed_challenges progress_data) [])
              (get_or (pf_emoji_collection progress_data) []) ;;;
            ret tt
        | None => ret tt
        end
      else ret tt
  | None => ret tt
  end.

(** ** Stores and environments of the examples *)

(** A clock that stands still, the code the generator yields, and no legacy
    files. *)
Definition env0 : env :=
  mk_env (fun _ => 1700000000) "c0de" None (fun _ => None).

(** The store after [add_user("ann", "h")] on an empty one. *)
Definition store_ann : db :=
  snd (run env0 empty_db (add_user "ann" "h" None false)).

(** Ten minutes after [env0]. *)
Definition env_later : env :=
  mk_env (fun _ => 1700000600) "c0de" None (fun _ => None).

(** The store after user 1 got a certificate and completed it. *)
Definition store_completed : db :=
  snd (run env0
         (snd (run env0 store_ann (create_certificate 1 "python-basics")))
         (complete_certificate "c0de")).

(** The store after two events of user 1 logged within the same second. *)
Definition store_two_events : db :=
  snd (run env0 (snd (run env0 store_ann (log_event 1 "login" None)))
         (log_event 1 "quiz_done" None)).

(** * Properties *)

(** ** The [json] round trip *)

Module JsonFacts.
Import Json.












End JsonFacts.

(** ** What a call computes *)

Ltac run_method :=
  unfold run, bind, try_except, try_finally, ret, raise, connect, disconnect,
    commit, execute_dml, execute_query, execute_ddl, bind_ints,
    current_timestamp, get_env, view, set_txn,
    with_users, with_progress, with_events, with_certificates;
  cbn.

Lemma db_eta (d : db) :
  mk_db (is_admin_column d) (users d) (seq_users d) (user_progress d)
    (seq_user_progress d) (user_events d) (seq_user_events d)
    (certificates d) (seq_certificates d) = d.
Proof. destruct d; reflexivity. Qed.

Lemma map_id_when {A} (f : A -> A) (t : A -> bool) (l : list A) :
  (forall x, In x l -> t x = false) ->
  map (fun x => if t x then f x else x) l = l.
Proof.
  induction l as [|x l IH]; intros H; simpl; [reflexivity|].
  rewrite (H x (or_introl eq_refl)), IH; auto.
  intros y Hy; apply H; now right.
Qed.

Lemma filter_nil_when {A} (t : A -> bool) (l : list A) :
  (forall x, In x l -> t x = false) -> filter t l = [].
Proof.
  induction l as [|x l IH]; intros H; simpl; [reflexivity|].
  rewrite (H x (or_introl eq_refl)). apply IH. intros y Hy; apply H; now right.
Qed.




Lemma user_id_absent (uid : Z) (us : list user_row) :
  ~ In uid (map u_id us) -> forall u, In u us -> (u_id u =? uid) = false.
Proof.
  intros H u Hu. apply Z.eqb_neq. intros E. apply H. rewrite <- E.
  now apply in_map.
Qed.


(** [update_user_progress] on a store. *)
Lemma update_user_progress_run (e : env) (d : db) (uid points : Z)
    (t c em : list string) :
  run e d (update_user_progress uid points t c em) =
  if fits_int64 points && fits_int64 uid
  then (Ok true,
        with_progress d
          (map (fun p =>
                  if p_user_id p =? uid
                  then mk_progress (p_id p) (p_user_id p) points
                         (Json.json_dumps t) (Json.json_dumps c)
                         (Json.json_dumps em) (clock e 0%nat)
                  else p)
               (user_progress d))
          (seq_user_progress d))
  else (Ok false, d).
Proof.
  unfold update_user_progress. run_method.
  destruct (fits_int64 points), (fits_int64 uid); reflexivity.
Qed.

(** [get_user_progress] on a store. *)
Lemma get_user_progress_run (e : env) (d : db) (uid : Z) :
  run e d (get_user_progress uid) =
  if fits_int64 uid
  then
    match fetchone (filter (fun p => p_user_id p =? uid) (user_progress d)) with
    | Some p =>
        match Json.json_loads (p_completed_tutorials p),
              Json.json_loads (p_completed_challenges p),
              Json.json_loads (p_emoji_collection p) with
        | Some t, Some c, Some em =>
            (Ok (mk_progress_dict (p_points p) t c em), d)
        | _, _, _ => (Raise JSONDecodeError, d)
        end
    | None => (Ok (mk_progress_dict 0 [] [] []), d)
    end
  else (Raise OverflowError, d).
Proof.
  unfold get_user_progress. run_method.
  destruct (fits_int64 uid); cbn; [|reflexivity].
  destruct (fetchone _) as [p|]; cbn; [|reflexivity].
  unfold json_loads.
  destruct (Json.json_loads (p_completed_tutorials p)); cbn; [|reflexivity].
  destruct (Json.json_loads (p_completed_challenges p)); cbn; [|reflexivity].
  destruct (Json.json_loads (p_emoji_collection p)); cbn; reflexivity.
Qed.

Lemma fits_b2z (b : bool) : fits_int64 (b2z b) = true.
Proof. destruct b; reflexivity. Qed.

(** [add_user] on a store.  The connection of [add_user] holds the write lock
    when [log_event] runs on its own connection, so the event insert fails
    and is swallowed: the user_created event is not stored. *)
Lemma add_user_run (e : env) (d : db) (username password_hash : string)
    (profile_data : option profile) (is_admin : bool) :
  run e d (add_user username password_hash profile_data is_admin) =
  if is_admin_column d then
    if existsb (fun u => String.eqb (u_username u) username) (users d)
    then (Ok None, d)
    else if fits_int64 (seq_users d + 1)
         then (Ok (Some (seq_users d + 1)),
               added_user e d username password_hash profile_data is_admin)
         else (Raise OverflowError, d)
  else (Raise OperationalError, d).
Proof.
  unfold add_user, added_user, new_user_row, log_event, insert_user,
    need_is_admin.
  destruct profile_data as [[|kv p]|]; run_method; rewrite fits_b2z; cbn;
    destruct (is_admin_column d); cbn; try reflexivity;
    destruct (existsb _ (users d)); cbn; try reflexivity;
    destruct (fits_int64 (seq_users d + 1)) eqn:Hf; cbn; try reflexivity;
    rewrite ?Hf; reflexivity.
Qed.

(** [log_event] on a store. *)
Lemma log_event_run (e : env) (d : db) (uid : Z) (ty : string)
    (det : option string) :
  run e d (log_event uid ty det) = (Ok tt, logged (clock e 0%nat) d uid ty det).
Proof.
  unfold log_event, logged. run_method.
  destruct (fits_int64 uid); reflexivity.
Qed.

(** [get_user_events] on a store. *)
Lemma get_user_events_run (e : env) (d : db) (uid limit : Z) :
  run e d (get_user_events uid limit) =
  if fits_int64 uid && fits_int64 limit
  then (Ok (map (fun ev => mk_event_dict (e_event_type ev) (e_event_details ev)
                             (e_timestamp ev))
              (limit_rows limit
                 (order_by_desc e_timestamp
                    (filter (fun ev => e_user_id ev =? uid) (user_events d))))),
        d)
  else (Raise OverflowError, d).
Proof.
  unfold get_user_events. run_method.
  destruct (fits_int64 uid), (fits_int64 limit); reflexivity.
Qed.

(** [complete_certificate] on a store: it returns [True] on every path. *)
Lemma complete_certificate_run (e : env) (d : db) (code : string) :
  run e d (complete_certificate code) =
  let d1 :=
    with_certificates d (map (completed_at (clock e 0%nat) code) (certificates d))
      (seq_certificates d) in
  (Ok true,
   match fetchone (filter (fun c => String.eqb (c_certificate_code c) code)
                          (certificates d1)) with
   | Some c =>
       logged (clock e 1%nat) d1 (c_user_id c) "certificate_completed"
         (Some ("Certificate of type '" ++ c_certificate_type c ++
                "' with code " ++ code ++ " completed"))
   | None => d1
   end).
Proof.
  unfold complete_certificate, log_event, logged, select_cert_owner.
  run_method. fold (completed_at (clock e 0%nat) code).
  destruct (filter _ (map _ (certificates d))) as [|c l]; cbn; [reflexivity|].
  destruct (fits_int64 (c_user_id c)); reflexivity.
Qed.

(** [create_certificate] on a store. *)
Lemma create_certificate_run (e : env) (d : db) (uid : Z) (ty : string) :
  run e d (create_certificate uid ty) =
  if fits_int64 uid
  then
    if existsb (fun c => String.eqb (c_certificate_code c) (uuid4 e))
               (certificates d)
    then (Ok None, d)
    else (Ok (Some (uuid4 e)),
          logged (clock e 1%nat)
            (with_certificates d
               (certificates d ++
                [mk_cert (seq_certificates d + 1) uid ty (clock e 0%nat)
                         (uuid4 e) None])
               (seq_certificates d + 1))
            uid "certificate_created"
            (Some ("Certificate of type '" ++ ty ++ "' created with code " ++
                   uuid4 e)))
  else (Ok None, d).
Proof.
  unfold create_certificate, log_event, logged, insert_certificate.
  run_method.
  destruct (fits_int64 uid) eqn:Hf; cbn; [|reflexivity].
  destruct (existsb _ (certificates d)); cbn; [reflexivity|].
  rewrite ?Hf. reflexivity.
Qed.


(** [update_user_profile], [set_admin_status], [reset_user_password] on a
    store. *)
Lemma update_user_profile_run (e : env) (d : db) (uid : Z) (p : profile) :
  run e d (update_user_profile uid p) =
  if fits_int64 uid
  then match update_profile_stmt (dict_get p "full_name")
               (dict_get p "parent_name") (dict_get p "dob")
               (dict_get p "class") (dict_get p "section")
               (dict_get p "school") uid d with
       | Ok (_, d') => (Ok true, d')
       | Raise _ => (Ok false, d)
       end
  else (Ok false, d).
Proof.
  unfold update_user_profile. run_method.
  destruct (fits_int64 uid); reflexivity.
Qed.

Lemma set_admin_status_run (e : env) (d : db) (uid : Z) (b : bool) :
  run e d (set_admin_status uid b) =
  if fits_int64 uid
  then match update_is_admin b uid d with
       | Ok (_, d') => (Ok true, d')
       | Raise _ => (Ok false, d)
       end
  else (Ok false, d).
Proof.
  unfold set_admin_status, update_is_admin, need_is_admin. run_method.
  rewrite fits_b2z. cbn.
  destruct (fits_int64 uid); cbn; [|reflexivity].
  destruct (is_admin_column d); reflexivity.
Qed.

Lemma reset_user_password_run (e : env) (d : db) (uid : Z) (h : string) :
  run e d (reset_user_password uid h) =
  if fits_int64 uid
  then match update_password_stmt h uid d with
       | Ok (_, d') =>
           (Ok true,
            logged (clock e 0%nat) d' uid "password_reset"
              (Some "Password was reset by administrator"))
       | Raise _ => (Ok false, d)
       end
  else (Ok false, d).
Proof.
  unfold reset_user_password, log_event, logged. run_method.
  destruct (fits_int64 uid) eqn:Hf; cbn; [|reflexivity].
  reflexivity.
Qed.

(** [initialize_database] on a store. *)
Lemma initialize_database_run (e : env) (d : db) :
  run e d initialize_database =
  let d1 := migration1 d in
  if Z.of_nat (List.length (filter u_is_admin (users d1))) =? 0
  then match users d1 with
       | [] => (Ok tt, d1)
       | u :: _ =>
           if fits_int64 (u_id u) then (Ok tt, promote (u_id u) d1)
           else (Raise OverflowError, d1)
       end
  else (Ok tt, d1).
Proof.
  unfold initialize_database, _run_migrations, migration1, promote,
    select_is_admin_probe, count_admins, select_first_user_id,
    update_is_admin, need_is_admin, create_table_if_not_exists,
    alter_add_is_admin.
  destruct d as [col us su ps sp es se cs sc].
  destruct col; run_method.
  - destruct (Z.of_nat _ =? 0); cbn; [|reflexivity].
    destruct us as [|u us]; simpl; [reflexivity|].
    unfold bind_ints; simpl.
    destruct (fits_int64 (u_id u)); reflexivity.
  - destruct (Z.of_nat _ =? 0); cbn; [|reflexivity].
    destruct us as [|u us]; simpl; [reflexivity|].
    unfold bind_ints; simpl.
    destruct (fits_int64 (u_id u)); reflexivity.
Qed.

(** ** Progress *)





(** ** Users *)








(** ** The bootstrap migration *)

Lemma promote_first_count (u : user_row) (us : list user_row) :
  ~ In (u_id u) (map u_id us) ->
  filter u_is_admin us = [] ->
  filter u_is_admin
    (map (fun x => if u_id x =? u_id u then set_is_admin true x else x)
         (u :: us))
  = [set_is_admin true u].
Proof.
  intros Hnotin Hnone. simpl. rewrite Z.eqb_refl. simpl.
  rewrite (map_id_when (set_is_admin true) (fun x => u_id x =? u_id u) us
             (user_id_absent _ _ Hnotin)).
  now rewrite Hnone.
Qed.

Lemma filter_admin_reset (us : list user_row) :
  filter u_is_admin (map (set_is_admin false) us) = [].
Proof. induction us as [|u us IH]; simpl; [reflexivity | assumption]. Qed.

Lemma map_id_reset (us : list user_row) :
  map u_id (map (set_is_admin false) us) = map u_id us.
Proof. induction us as [|u us IH]; simpl; [reflexivity | now rewrite IH]. Qed.

(** C4: on a store whose user ids are distinct 64-bit integers (the PRIMARY
    KEY of [users]), that has no admin and at least one user,
    [initialize_database] leaves exactly one admin; running it again changes
    nothing, so the admin count stays 1. *)
Theorem bootstrap_admin_once (e1 e2 : env) (d : db) :
  NoDup (map u_id (users d)) ->
  Forall (fun u => fits_int64 (u_id u) = true) (users d) ->
  admin_count d = 0%nat ->
  users d <> [] ->
  exists d1,
    run e1 d initialize_database = (Ok tt, d1) /\
    admin_count d1 = 1%nat /\
    exists d2,
      run e2 d1 initialize_database = (Ok tt, d2) /\
      admin_count d2 = admin_count d1.
Proof.
  intros Hnd Hfit Hzero Hne.
  destruct d as [col us su ps sp es se cs sc].
  unfold admin_count in Hzero. cbn [is_admin_column users] in *.
  destruct us as [|u us]; [contradiction|].
  change (map u_id (u :: us)) with (u_id u :: map u_id us) in Hnd.
  apply NoDup_cons_iff in Hnd. destruct Hnd as [Hnotin _].
  apply Forall_inv in Hfit.
  assert (Hstay : forall x, In x us -> (u_id x =? u_id u) = false)
    by exact (user_id_absent _ _ Hnotin).
  destruct col.
  - apply List.length_zero_iff_nil in Hzero. simpl in Hzero.
    destruct (u_is_admin u) eqn:Hu; [discriminate|].
    exists (mk_db true (set_is_admin true u :: us) su ps sp es se cs sc).
    split; [|split; [|eexists; split; [|reflexivity]]].
    + rewrite initialize_database_run. unfold migration1, promote, with_users.
      cbn. rewrite Hu, Hzero. cbn. rewrite Hfit, Z.eqb_refl.
      now rewrite (map_id_when (set_is_admin true) _ us Hstay).
    + unfold admin_count. cbn. now rewrite Hzero.
    + rewrite initialize_database_run. unfold migration1. cbn.
      reflexivity.
  - exists (mk_db true
              (set_is_admin true u :: map (set_is_admin false) us)
              su ps sp es se cs sc).
    assert (Hstay' : forall x, In x (map (set_is_admin false) us) ->
                       (u_id x =? u_id u) = false).
    { intros x Hx. apply in_map_iff in Hx. destruct Hx as [y [<- Hy]].
      exact (Hstay y Hy). }
    split; [|split; [|eexists; split; [|reflexivity]]].
    + rewrite initialize_database_run.
      unfold migration1, promote, alter_add_is_admin, with_users.
      cbn. rewrite filter_admin_reset. cbn. rewrite Hfit, Z.eqb_refl.
      now rewrite (map_id_when (set_is_admin true) _ _ Hstay').
    + unfold admin_count. cbn. now rewrite filter_admin_reset.
    + rewrite initialize_database_run. unfold migration1. cbn.
      reflexivity.
Qed.

Lemma bootstrap_admin_once_witness :
  exists d1,
    run env0 store_ann initialize_database = (Ok tt, d1) /\
    admin_count d1 = 1%nat /\
    exists d2,
      run env0 d1 initialize_database = (Ok tt, d2) /\
      admin_count d2 = admin_count d1.
Proof.
  apply (bootstrap_admin_once env0 env0 store_ann).
  - simpl. constructor; [intros [] | constructor].
  - simpl. constructor; [reflexivity | constructor].
  - reflexivity.
  - discriminate.
Defined.

(** ** Certificates *)












(** ** Events *)

Section OrderBy.
Context {A : Type} (key : A -> Z).

Let after (a b : A) : Prop := key b <= key a.

Lemma insert_desc_hd (x y : A) (l : list A) :
  after y x -> HdRel after y l -> HdRel after y (insert_desc key x l).
Proof.
  intros Hyx Hl. destruct l as [|z l]; simpl.
  - now constructor.
  - destruct (key z <=? key x); constructor; [assumption|].
    now inversion Hl.
Qed.

Lemma insert_desc_sorted (x : A) (l : list A) :
  Sorted after l -> Sorted after (insert_desc key x l).
Proof.
  induction l as [|y l IH]; intros Hs; simpl.
  - repeat constructor.
  - inversion Hs as [|? ? Hs' Hhd]; subst.
    destruct (key y <=? key x) eqn:E.
    + constructor; [assumption|]. constructor. unfold after.
      now apply Z.leb_le.
    + constructor; [now apply IH|].
      apply insert_desc_hd; [|assumption].
      unfold after. apply Z.leb_gt in E. lia.
Qed.

Lemma order_by_desc_sorted (l : list A) : Sorted after (order_by_desc key l).
Proof.
  induction l as [|x l IH]; simpl; [constructor|].
  now apply insert_desc_sorted.
Qed.


Lemma sorted_keys (l : list A) :
  Sorted after l -> newest_first (map key l).
Proof.
  unfold newest_first. induction 1 as [|x l Hs IH Hhd]; simpl; constructor.
  - assumption.
  - destruct l as [|y l]; simpl; constructor.
    inversion Hhd; subst. unfold after in *. lia.
Qed.

End OrderBy.







(** When another connection holds the write lock, the insert of [log_event]
    fails, [log_event] returns normally and the file is as it was. *)
Lemma log_event_locked (w : world) (owner : nat) (copy : db) (now uid : Z)
    (ty : string) (det : option string) :
  txn w = Some (owner, copy) ->
  owner <> next_conn w ->
  fst (execute_dml (next_conn w) [uid] (insert_event now uid ty det) w)
    = Raise (if fits_int64 uid then OperationalError else OverflowError) /\
  fst (log_event uid ty det w) = Ok tt /\
  file (snd (log_event uid ty det w)) = file w.
Proof.
  intros Ht Hne. apply Nat.eqb_neq in Hne.
  unfold log_event. run_method. rewrite Ht.
  destruct (fits_int64 uid); cbn; rewrite ?Ht, ?Hne; cbn; rewrite ?Ht, ?Hne;
    repeat split.
Qed.



(** After [initialize_database], which the constructor runs, [users] has
    the [is_admin] column. *)
Lemma initialize_database_adds_column (e : env) (d : db) :
  is_admin_column (snd (run e d initialize_database)) = true.
Proof.
  rewrite initialize_database_run. unfold migration1, alter_add_is_admin, promote.
  destruct d as [col us su ps sp es se cs sc]. cbn.
  destruct col; cbn;
    destruct (Z.of_nat _ =? 0); cbn; try reflexivity;
    match goal with
    | |- context [match ?l with [] => _ | _ :: _ => _ end] => destruct l
    end; cbn; try reflexivity;
    match goal with
    | |- context [fits_int64 ?x] => destruct (fits_int64 x)
    end; reflexivity.
Qed.

(** ** Updates keyed by a user id *)




(** ** Properties of the store that every statement keeps *)

Section Preserved.

Variable P : db -> Prop.

Lemma keeps_ret {A} (a : A) : keeps P (ret a).
Proof. intros w H. exact H. Qed.

Lemma keeps_raise {A} (e : exn) : keeps P (@raise A e).
Proof. intros w H. exact H. Qed.

Lemma keeps_bind {A B} (m : M A) (k : A -> M B) :
  keeps P m -> (forall a, keeps P (k a)) -> keeps P (bind m k).
Proof.
  intros Hm Hk w Hw. unfold bind. specialize (Hm w Hw).
  destruct (m w) as [[a|e] w']; cbn in *; [now apply Hk | assumption].
Qed.

Lemma keeps_try_except {A} (m : M A) (h : exn -> M A) :
  keeps P m -> (forall e, keeps P (h e)) -> keeps P (try_except m h).
Proof.
  intros Hm Hh w Hw. unfold try_except. specialize (Hm w Hw).
  destruct (m w) as [[a|e] w']; cbn in *; [assumption | now apply Hh].
Qed.

Lemma keeps_try_finally {A} (m : M A) (fin : M unit) :
  keeps P m -> keeps P fin -> keeps P (try_finally m fin).
Proof.
  intros Hm Hf w Hw. unfold try_finally. specialize (Hm w Hw).
  destruct (m w) as [r w']; cbn in *. specialize (Hf w' Hm).
  destruct (fin w') as [[u|e] w'']; cbn in *; assumption.
Qed.

Lemma keeps_connect : keeps P connect.
Proof. intros w H. exact H. Qed.

Lemma keeps_get_env : keeps P get_env.
Proof. intros w H. exact H. Qed.

Lemma keeps_current_timestamp : keeps P current_timestamp.
Proof. intros w H. exact H. Qed.

Lemma keeps_bind_ints (params : list Z) : keeps P (bind_ints params).
Proof. unfold bind_ints. destruct (forallb _ _); intros w H; exact H. Qed.

Lemma keeps_disconnect (conn : nat) : keeps P (disconnect conn).
Proof.
  intros w [Hf Ht]. unfold disconnect.
  destruct (txn w) as [[o c]|] eqn:E; cbn; [|now split; [|rewrite E]].
  destruct (Nat.eqb o conn); cbn; [|now split; [|rewrite E]].
  split; [assumption | discriminate].
Qed.

Lemma keeps_commit (conn : nat) : keeps P (commit conn).
Proof.
  intros w [Hf Ht]. unfold commit.
  destruct (txn w) as [[o c]|] eqn:E; cbn; [|now split; [|rewrite E]].
  destruct (Nat.eqb o conn); cbn; [|now split; [|rewrite E]].
  split; [now apply (Ht o) | discriminate].
Qed.

Lemma keeps_query {A} (conn : nat) (params : list Z) (q : db -> outcome A) :
  keeps P (execute_query conn params q).
Proof.
  apply keeps_bind; [apply keeps_bind_ints|]. intros _ w H. exact H.
Qed.

Lemma keeps_dml {A} (conn : nat) (params : list Z)
    (s : db -> outcome (A * db)) :
  stmt_keeps P s -> keeps P (execute_dml conn params s).
Proof.
  intros Hs. apply keeps_bind; [apply keeps_bind_ints|].
  intros _ w [Hf Ht].
  destruct (txn w) as [[o c]|] eqn:E; cbn.
  - destruct (Nat.eqb o conn); cbn; [|now split; [|rewrite E]].
    destruct (s c) as [[a c']|x] eqn:Es; cbn; [|now split; [|rewrite E]].
    split; [assumption|]. intros o' c'' [= _ <-].
    exact (Hs c a c' (Ht o c eq_refl) Es).
  - destruct (s (file w)) as [[a c']|x] eqn:Es; cbn.
    + split; [assumption|]. intros o' c'' [= _ <-].
      exact (Hs (file w) a c' Hf Es).
    + split; [assumption|]. intros o' c'' [= _ <-]. assumption.
Qed.

Lemma keeps_ddl (conn : nat) (s : db -> db) :
  (forall d, P d -> P (s d)) -> keeps P (execute_ddl conn s).
Proof.
  intros Hs w [Hf Ht]. unfold execute_ddl.
  destruct (txn w) as [[o c]|] eqn:E; cbn.
  - destruct (Nat.eqb o conn); cbn; [|now split; [|rewrite E]].
    split; [assumption|]. intros o' c'' [= _ <-]. apply Hs. now apply (Ht o).
  - split; [now apply Hs | discriminate].
Qed.

Lemma keeps_for_each {A} (xs : list A) (body : A -> M unit) :
  (forall x, keeps P (body x)) -> keeps P (for_each xs body).
Proof.
  intros Hb. induction xs as [|x xs IH]; simpl.
  - apply keeps_ret.
  - apply keeps_bind; [apply Hb | intros _; exact IH].
Qed.

Lemma keeps_json_loads (s : string) : keeps P (json_loads s).
Proof.
  unfold json_loads. destruct (Json.json_loads s);
    [apply keeps_ret | apply keeps_raise].
Qed.

(** A call on a store where [P] holds leaves one where it holds. *)
Lemma keeps_final {A} (m : M A) (e : env) (d : db) :
  keeps P m -> P d -> P (file (final m (mk_world d None 0 0 e))).
Proof.
  intros Hm Hd. apply Hm. split; [exact Hd | discriminate].
Qed.

End Preserved.

Create HintDb keeps.

#[local] Hint Resolve keeps_ret keeps_raise keeps_connect keeps_get_env
  keeps_current_timestamp keeps_disconnect keeps_commit keeps_query
  keeps_json_loads keeps_bind_ints : keeps.

(** The statement facts of the context, one hypothesis each. *)
Ltac open_stmts :=
  repeat match goal with
    | H : users_stmts_keep _ |- _ =>
        pose proof (k_alter _ H); pose proof (k_update_is_admin _ H);
        pose proof (k_update_last_login _ H);
        pose proof (k_update_profile _ H); pose proof (k_update_password _ H);
        clear H
    | H : progress_stmts_keep _ |- _ => unfold progress_stmts_keep in H
    | H : insert_progress_keeps _ |- _ => unfold insert_progress_keeps in H
    | H : insert_user_keeps _ |- _ => unfold insert_user_keeps in H
    | H : cert_stmts_keep _ |- _ =>
        pose proof (k_insert_certificate _ H);
        pose proof (k_update_completed _ H); clear H
    | H : events_stmts_keep _ |- _ => unfold events_stmts_keep in H
    end.

Ltac keeps_step :=
  first
    [ solve [auto with keeps]
    | match goal with
      | |- keeps _ (match ?x with _ => _ end) => destruct x
      | |- keeps _ (let _ := _ in _) => cbv zeta
      end
    | apply keeps_dml; solve [auto with keeps]
    | apply keeps_ddl; solve [auto with keeps]
    | apply keeps_for_each; intros ?
    | apply keeps_try_finally
    | apply keeps_try_except; [|intros ?]
    | apply keeps_bind; [|intros ?] ].

Ltac keeps_auto := open_stmts; repeat keeps_step.

Section Methods.

Variable P : db -> Prop.
Hypothesis Husers : users_stmts_keep P.
Hypothesis Hprogress : progress_stmts_keep P.
Hypothesis Hevents : events_stmts_keep P.

Lemma keeps_log_event (uid : Z) (ty : string) (det : option string) :
  keeps P (log_event uid ty det).
Proof. unfold log_event. keeps_auto. Qed.

#[local] Hint Resolve keeps_log_event : keeps.

Lemma keeps_get_user (u : string) : keeps P (get_user u).
Proof. unfold get_user. keeps_auto. Qed.

Lemma keeps_update_last_login (uid : Z) : keeps P (update_last_login uid).
Proof. unfold update_last_login. keeps_auto. Qed.

Lemma keeps_get_user_progress (uid : Z) : keeps P (get_user_progress uid).
Proof. unfold get_user_progress. keeps_auto. Qed.

Lemma keeps_update_user_progress (uid pts : Z) (t c em : list string) :
  keeps P (update_user_progress uid pts t c em).
Proof. unfold update_user_progress. keeps_auto. Qed.

Lemma keeps_get_user_events (uid limit : Z) :
  keeps P (get_user_events uid limit).
Proof. unfold get_user_events. keeps_auto. Qed.

Lemma keeps_get_user_certificates (uid : Z) :
  keeps P (get_user_certificates uid).
Proof. unfold get_user_certificates. keeps_auto. Qed.

Lemma keeps_verify_certificate (code : string) :
  keeps P (verify_certificate code).
Proof. unfold verify_certificate. keeps_auto. Qed.

Lemma keeps_get_all_users : keeps P get_all_users.
Proof. unfold get_all_users. keeps_auto. Qed.

Lemma keeps_update_user_profile (uid : Z) (pd : profile) :
  keeps P (update_user_profile uid pd).
Proof. unfold update_user_profile. keeps_auto. Qed.

Lemma keeps_set_admin_status (uid : Z) (a : bool) :
  keeps P (set_admin_status uid a).
Proof. unfold set_admin_status. keeps_auto. Qed.

Lemma keeps_get_user_by_id (uid : Z) : keeps P (get_user_by_id uid).
Proof. unfold get_user_by_id. keeps_auto. Qed.

Lemma keeps_reset_user_password (uid : Z) (h : string) :
  keeps P (reset_user_password uid h).
Proof. unfold reset_user_password. keeps_auto. Qed.

Lemma keeps_initialize_database : keeps P initialize_database.
Proof.
  unfold initialize_database, _run_migrations, create_table_if_not_exists.
  keeps_auto.
Qed.

#[local] Hint Resolve keeps_update_user_progress
  keeps_initialize_database : keeps.

Section AddUser.

Hypothesis Hinsert_user : insert_user_keeps P.
Hypothesis Hinsert_progress : insert_progress_keeps P.

Lemma keeps_add_user (u p : string) (pd : option profile) (a : bool) :
  keeps P (add_user u p pd a).
Proof. unfold add_user. keeps_auto. Qed.

End AddUser.

Section Composite.

Hypothesis Hadd : forall u p pd a, keeps P (add_user u p pd a).

Lemma keeps_migrate_data_from_json : keeps P migrate_data_from_json.
Proof. unfold migrate_data_from_json. keeps_auto. Qed.

#[local] Hint Resolve keeps_migrate_data_from_json : keeps.

Lemma keeps_migrate_from_json_if_needed : keeps P migrate_from_json_if_needed.
Proof. unfold migrate_from_json_if_needed. keeps_auto. Qed.

End Composite.

Hypothesis Hcerts : cert_stmts_keep P.

Lemma keeps_create_certificate (uid : Z) (ty : string) :
  keeps P (create_certificate uid ty).
Proof. unfold create_certificate. keeps_auto. Qed.

Lemma keeps_complete_certificate (code : string) :
  keeps P (complete_certificate code).
Proof. unfold complete_certificate. keeps_auto. Qed.

End Methods.

(** ** The statements that do not touch [certificates] *)

Ltac stmt_frame :=
  unfold stmt_keeps; intros;
  repeat match goal with
    | H : context [need_is_admin] |- _ => unfold need_is_admin in H
    | H : (if ?b then _ else _) = Ok _ |- _ => destruct b; try discriminate
    end;
  match goal with
  | H : Ok _ = Ok _ |- _ => injection H as _ <-; cbn; assumption
  end.







(** ** The life of a certificate *)












(** A second [complete_certificate] on a completed certificate leaves it
    completed and writes the date again. *)
Lemma complete_certificate_again_rewrites_date :
  map c_completed_date (certificates store_completed) = [Some 1700000000] /\
  map c_completed_date
      (certificates
         (snd (run env_later store_completed (complete_certificate "c0de"))))
    = [Some 1700000600].
Proof. split; reflexivity. Qed.



(** ** The invariant of the store *)

Lemma map_rewritten {A B} (key : A -> B) (t : A -> bool) (f : A -> A)
    (l : list A) :
  (forall x, key (f x) = key x) ->
  map key (map (fun x => if t x then f x else x) l) = map key l.
Proof.
  intros Hf. induction l as [|x l IH]; simpl; [reflexivity|].
  rewrite IH. destruct (t x); [now rewrite Hf | reflexivity].
Qed.

Lemma forall_rewritten {A} (Q : A -> Prop) (t : A -> bool) (f : A -> A)
    (l : list A) :
  (forall x, Q x -> Q (f x)) ->
  Forall Q l -> Forall Q (map (fun x => if t x then f x else x) l).
Proof.
  intros Hf. induction 1 as [|x l Hx Hl IH]; simpl; constructor;
    [destruct (t x); auto | assumption].
Qed.

(** An UPDATE of [users] that leaves id and username of every row. *)
Lemma store_ok_users_rewritten (d : db) (t : user_row -> bool)
    (f : user_row -> user_row) :
  (forall u, u_id (f u) = u_id u) ->
  (forall u, u_username (f u) = u_username u) ->
  store_ok d ->
  store_ok (with_users d (is_admin_column d)
              (map (fun u => if t u then f u else u) (users d)) (seq_users d)).
Proof.
  intros Hid Hname [H1 H2 H3 H4 H4' H5 H5']. constructor; cbn.
  - assumption.
  - now rewrite map_rewritten.
  - now rewrite map_rewritten.
  - apply forall_rewritten; [|assumption]. intros u. now rewrite Hid.
  - apply forall_rewritten; [|assumption]. intros u. now rewrite Hid.
  - assumption.
  - assumption.
Qed.

(** The store after the two inserts of [add_user], the new id fitting 64
    bits. *)
Lemma store_ok_added (d : db) (u : user_row) (p : progress_row) (s : Z) :
  store_ok d ->
  u_id u = seq_users d + 1 ->
  p_user_id p = seq_users d + 1 ->
  fits_int64 (seq_users d + 1) = true ->
  existsb (fun x => String.eqb (u_username x) (u_username u)) (users d) = false ->
  store_ok (mk_db (is_admin_column d) (users d ++ [u]) (seq_users d + 1)
              (user_progress d ++ [p]) s
              (user_events d) (seq_user_events d)
              (certificates d) (seq_certificates d)).
Proof.
  intros [H1 H2 H3 H4 H4' H5 H5'] Hu Hp Hfit Hnew.
  pose proof H4 as H4all. rewrite Forall_forall in H4.
  constructor; cbn.
  - assumption.
  - rewrite map_app. simpl.
    apply NoDup_app; [assumption | repeat constructor; intros [] |].
    intros name Hin [<-|[]]. apply in_map_iff in Hin.
    destruct Hin as [x [Hx Hin]].
    assert (existsb (fun x => String.eqb (u_username x) (u_username u)) (users d)
            = true); [|congruence].
    apply existsb_exists. exists x. split; [assumption|]. now apply String.eqb_eq.
  - rewrite map_app. simpl.
    apply NoDup_app; [assumption | repeat constructor; intros [] |].
    intros i Hin [<-|[]]. apply in_map_iff in Hin.
    destruct Hin as [x [Hx Hin]]. specialize (H4 x Hin). lia.
  - apply Forall_app. split.
    + apply Forall_forall. intros x Hx. specialize (H4 x Hx). lia.
    + constructor; [lia | constructor].
  - apply Forall_app. split; [assumption|].
    constructor; [now rewrite Hu | constructor].
  - apply Forall_app. split.
    + eapply Forall_impl; [|exact H5]. cbn. intros q Hq. lia.
    + constructor; [lia | constructor].
  - apply Forall_app. split; [assumption|].
    constructor; [now rewrite Hp | constructor].
Qed.

Lemma users_stmts_keep_store_ok : users_stmts_keep store_ok.
Proof.
  constructor.
  - intros d [H1 H2 H3 H4 H4' H5 H5']. unfold alter_add_is_admin.
    constructor; cbn; try assumption; try reflexivity.
    + now rewrite map_map.
    + now rewrite map_map.
    + rewrite Forall_map. exact H4.
    + rewrite Forall_map. exact H4'.
  - intros b uid d a d' Hd Hs. unfold update_is_admin, need_is_admin in Hs.
    destruct (is_admin_column d) eqn:Hc; [|discriminate].
    injection Hs as _ <-. rewrite <- Hc.
    now apply (store_ok_users_rewritten d (fun u => u_id u =? uid)
                 (set_is_admin b)).
  - intros now uid d a d' Hd Hs. unfold update_last_login_stmt in Hs.
    injection Hs as _ <-.
    now apply (store_ok_users_rewritten d (fun u => u_id u =? uid)
                 (fun u => mk_user (u_id u) (u_username u) (u_password_hash u)
                             (u_full_name u) (u_parent_name u) (u_dob u)
                             (u_class u) (u_section u) (u_school u)
                             (u_is_admin u) (u_created_at u) (Some now))).
  - intros f1 f2 f3 f4 f5 f6 uid d a d' Hd Hs. unfold update_profile_stmt in Hs.
    injection Hs as _ <-.
    now apply (store_ok_users_rewritten d (fun u => u_id u =? uid)
                 (fun u => mk_user (u_id u) (u_username u) (u_password_hash u)
                             (Some f1) (Some f2) (Some f3) (Some f4) (Some f5)
                             (Some f6) (u_is_admin u) (u_created_at u)
                             (u_last_login u))).
  - intros h uid d a d' Hd Hs. unfold update_password_stmt in Hs.
    injection Hs as _ <-.
    now apply (store_ok_users_rewritten d (fun u => u_id u =? uid)
                 (fun u => mk_user (u_id u) (u_username u) h
                             (u_full_name u) (u_parent_name u) (u_dob u)
                             (u_class u) (u_section u) (u_school u)
                             (u_is_admin u) (u_created_at u) (u_last_login u))).
Qed.

Lemma progress_stmts_keep_store_ok : progress_stmts_keep store_ok.
Proof.
  intros now pts t c em uid d a d' [H1 H2 H3 H4 H4' H5 H5'] Hs.
  unfold update_progress_stmt in Hs. injection Hs as _ <-.
  constructor; cbn; try assumption.
  - apply forall_rewritten; [|assumption]. intros p Hp. exact Hp.
  - apply forall_rewritten; [|assumption]. intros p Hp. exact Hp.
Qed.

Lemma events_stmts_keep_store_ok : events_stmts_keep store_ok.
Proof.
  intros now uid ty det d a d' [H1 H2 H3 H4 H4' H5 H5'] Hs.
  unfold insert_event in Hs. injection Hs as _ <-.
  constructor; cbn; assumption.
Qed.

Lemma cert_stmts_keep_store_ok : cert_stmts_keep store_ok.
Proof.
  constructor.
  - intros now uid ty code d a d' [H1 H2 H3 H4 H4' H5 H5'] Hs.
    unfold insert_certificate in Hs.
    destruct (existsb _ (certificates d)); [discriminate|].
    injection Hs as _ <-. constructor; cbn; assumption.
  - intros now code d a d' [H1 H2 H3 H4 H4' H5 H5'] Hs.
    unfold update_completed_stmt in Hs. injection Hs as _ <-.
    constructor; cbn; assumption.
Qed.

Lemma eqb_succ_false (n : nat) : Nat.eqb n (S n) = false.
Proof. apply Nat.eqb_neq. lia. Qed.

Ltac split_conditions :=
  repeat (cbn;
          first
            [ progress (rewrite ?Nat.eqb_refl, ?eqb_succ_false)
            | match goal with
              | |- context [if is_admin_column ?x then _ else _] =>
                  destruct (is_admin_column x) eqn:?
              | |- context [if existsb ?f ?l then _ else _] =>
                  destruct (existsb f l) eqn:?
              | |- context [fits_int64 ?x] => destruct (fits_int64 x) eqn:?
              | |- context [Nat.eqb ?o ?n] => destruct (Nat.eqb o n) eqn:?
              end ]).

(** [add_user] keeps the invariant in every state of the engine: the
    progress row it inserts is of the id it has just allocated. *)
Lemma keeps_add_user_store_ok (u p : string) (pd : option profile) (a : bool) :
  keeps store_ok (add_user u p pd a).
Proof.
  intros [f t n k e] [Hf Ht]. cbn in Hf, Ht.
  unfold add_user, log_event, insert_user, need_is_admin, insert_progress,
    insert_event.
  destruct pd as [[|kv pl]|]; run_method; rewrite fits_b2z; cbn.
  all: destruct t as [[o c]|]; split_conditions; cbn.
  all: try (split; [assumption | intros o' c' [= <- <-]; now apply (Ht o)]).
  all: try (split; [assumption | intros o' c' [=]]).
  all: split; [|intros o' c' [=]].
  all: match goal with
       | H : is_admin_column ?x = true |- _ => rewrite <- H
       end.
  all: apply store_ok_added;
    [ first [assumption | now apply (Ht o)] | reflexivity | reflexivity
    | assumption | assumption ].
Qed.

(** Every call keeps the invariant of the store. *)
Theorem store_ok_exec (e : env) (c : call) (d : db) :
  store_ok d -> store_ok (exec e c d).
Proof.
  intros Hd.
  pose proof users_stmts_keep_store_ok as Hu.
  pose proof progress_stmts_keep_store_ok as Hp.
  pose proof events_stmts_keep_store_ok as He.
  pose proof cert_stmts_keep_store_ok as Hc.
  pose proof keeps_add_user_store_ok as Hadd.
  unfold exec. destruct c; cbn [perform]; apply keeps_final; try assumption.
  - apply Hadd.
  - now apply keeps_get_user.
  - now apply keeps_update_last_login.
  - now apply keeps_get_user_progress.
  - now apply keeps_update_user_progress.
  - now apply keeps_log_event.
  - now apply keeps_get_user_events.
  - now apply keeps_create_certificate.
  - now apply keeps_complete_certificate.
  - now apply keeps_get_user_certificates.
  - now apply keeps_verify_certificate.
  - now apply keeps_get_all_users.
  - now apply keeps_update_user_profile.
  - now apply keeps_set_admin_status.
  - now apply keeps_get_user_by_id.
  - now apply keeps_reset_user_password.
  - now apply keeps_initialize_database.
  - now apply keeps_migrate_data_from_json.
  - now apply keeps_migrate_from_json_if_needed.
Qed.

Lemma store_ok_empty : store_ok empty_db.
Proof. constructor; cbn; try reflexivity; constructor. Qed.

(** The invariant holds after every history of calls on the empty store. *)
Theorem store_ok_exec_all (h : list (env * call)) :
  forall d, store_ok d -> store_ok (exec_all h d).
Proof.
  induction h as [|[e c] h IH]; intros d Hd; simpl; [assumption|].
  apply IH. now apply store_ok_exec.
Qed.

(** * Further properties of the store *)

(** ** What the other calls compute *)

(** [get_user] on a store. *)
Lemma get_user_run (e : env) (d : db) (username : string) :
  run e d (get_user username) =
  if is_admin_column d
  then (Ok (option_map user_dict_of
              (fetchone (filter (fun u => String.eqb (u_username u) username)
                                (users d)))), d)
  else (Raise OperationalError, d).
Proof.
  unfold get_user, select_user_by_name, need_is_admin. run_method.
  destruct (is_admin_column d); cbn; [|reflexivity].
  destruct (fetchone _) as [u|]; reflexivity.
Qed.

(** [get_user_by_id] on a store. *)
Lemma get_user_by_id_run (e : env) (d : db) (uid : Z) :
  run e d (get_user_by_id uid) =
  if fits_int64 uid
  then if is_admin_column d
       then (Ok (option_map admin_dict_of
                   (fetchone (filter (fun u => u_id u =? uid) (users d)))), d)
       else (Raise OperationalError, d)
  else (Raise OverflowError, d).
Proof.
  unfold get_user_by_id, select_user_by_id, need_is_admin. run_method.
  destruct (fits_int64 uid); cbn; [|reflexivity].
  destruct (is_admin_column d); cbn; [|reflexivity].
  destruct (fetchone _) as [u|]; reflexivity.
Qed.

(** [get_all_users] on a store. *)
Lemma get_all_users_run (e : env) (d : db) :
  run e d get_all_users =
  if is_admin_column d
  then (Ok (map admin_dict_of (order_by_desc u_created_at (users d))), d)
  else (Raise OperationalError, d).
Proof.
  unfold get_all_users, select_all_users, need_is_admin. run_method.
  destruct (is_admin_column d); reflexivity.
Qed.

(** [get_user_certificates] on a store. *)
Lemma get_user_certificates_run (e : env) (d : db) (uid : Z) :
  run e d (get_user_certificates uid) =
  if fits_int64 uid
  then (Ok (map cert_dict_of
              (order_by_desc c_issue_date
                 (filter (fun c => c_user_id c =? uid) (certificates d)))), d)
  else (Raise OverflowError, d).
Proof.
  unfold get_user_certificates, select_user_certificates. run_method.
  destruct (fits_int64 uid); reflexivity.
Qed.

(** [update_last_login] on a store. *)
Lemma update_last_login_run (e : env) (d : db) (uid : Z) :
  run e d (update_last_login uid) =
  if fits_int64 uid
  then (Ok tt,
        with_users d (is_admin_column d)
          (map (logged_in (clock e 0%nat) uid) (users d)) (seq_users d))
  else (Raise OverflowError, d).
Proof.
  unfold update_last_login, update_last_login_stmt. run_method.
  destruct (fits_int64 uid); reflexivity.
Qed.

(** ** Users: creation and lookup *)

(** X1: when [add_user] has created a user, [get_user] on the username
    returns the new id, the username, the password hash and the admin flag
    as given, and the six profile fields as [add_user] stored them: NULL
    when no profile (or an empty dict) was given, else the value of each
    key, [''] for a missing key. *)
Theorem add_user_then_get_user (e e' : env) (d d' : db)
    (username password_hash : string) (profile_data : option profile)
    (is_admin : bool) (uid : Z) :
  run e d (add_user username password_hash profile_data is_admin)
    = (Ok (Some uid), d') ->
  run e' d' (get_user username) =
  (Ok (Some (mk_user_dict uid username password_hash
               (stored_profile_field profile_data "full_name")
               (stored_profile_field profile_data "parent_name")
               (stored_profile_field profile_data "dob")
               (stored_profile_field profile_data "class")
               (stored_profile_field profile_data "section")
               (stored_profile_field profile_data "school")
               is_admin)), d').
Proof.
  intros Hrun. rewrite add_user_run in Hrun.
  destruct (is_admin_column d) eqn:Hcol; [|discriminate].
  destruct (existsb _ (users d)) eqn:Hnew; [discriminate|].
  destruct (fits_int64 (seq_users d + 1)); [|discriminate].
  injection Hrun as <- <-.
  rewrite get_user_run. unfold added_user. cbn. rewrite Hcol.
  rewrite filter_app.
  assert (Hnone : filter (fun u => String.eqb (u_username u) username) (users d)
                  = []).
  { apply filter_nil_when. intros u Hu.
    destruct (String.eqb (u_username u) username) eqn:E; [|reflexivity].
    rewrite <- Hnew. symmetry. apply existsb_exists. eauto. }
  rewrite Hnone. unfold new_user_row, stored_profile_field.
  destruct profile_data as [[|kv p]|]; cbn; rewrite String.eqb_refl; reflexivity.
Qed.

Lemma add_user_then_get_user_witness :
  run env0 store_ann (get_user "ann") =
  (Ok (Some (mk_user_dict 1 "ann" "h" None None None None None None false)),
   store_ann).
Proof.
  apply (add_user_then_get_user env0 env0 empty_db store_ann "ann" "h" None
           false 1).
  reflexivity.
Defined.

(** X2: on a store that has run its initialization, [get_user] returns
    [None] exactly when no row has the username, and a dict it returns has
    that username; the store is left as it was. *)
Theorem get_user_none_iff_absent (e : env) (d : db) (username : string) :
  is_admin_column d = true ->
  exists r,
    run e d (get_user username) = (Ok r, d) /\
    (r = None <-> ~ In username (map u_username (users d))) /\
    (forall ud, r = Some ud -> ud_username ud = username).
Proof.
  intros Hcol. rewrite get_user_run, Hcol. eexists. split; [reflexivity|].
  induction (users d) as [|u us [IH1 IH2]]; cbn.
  - split; [tauto | discriminate].
  - destruct (String.eqb (u_username u) username) eqn:E; cbn.
    + apply String.eqb_eq in E. split.
      * split; [discriminate | intros H; exfalso; apply H; now left].
      * intros ud [= <-]. exact E.
    + apply String.eqb_neq in E. split; [|exact IH2].
      rewrite IH1. tauto.
Qed.

Lemma get_user_none_iff_absent_witness :
  exists r,
    run env0 store_ann (get_user "bob") = (Ok r, store_ann) /\
    (r = None <-> ~ In "bob" (map u_username (users store_ann))) /\
    (forall ud, r = Some ud -> ud_username ud = "bob").
Proof.
  apply (get_user_none_iff_absent env0 store_ann "bob"). reflexivity.
Defined.

(** X3: [add_user] stores no event: whatever it returns, [user_events] and
    [certificates] are after the call what they were before.  The
    user_created event is written on another connection while [add_user]
    holds the write lock, fails, and is swallowed by [log_event]. *)
Theorem add_user_stores_no_event (e : env) (d : db)
    (username password_hash : string) (profile_data : option profile)
    (is_admin : bool) :
  user_events
    (snd (run e d (add_user username password_hash profile_data is_admin)))
    = user_events d /\
  certificates
    (snd (run e d (add_user username password_hash profile_data is_admin)))
    = certificates d.
Proof.
  rewrite add_user_run.
  destruct (is_admin_column d); [|split; reflexivity].
  destruct (existsb _ (users d)); [split; reflexivity|].
  destruct (fits_int64 (seq_users d + 1)); split; reflexivity.
Qed.

(** ** Progress: rows that are missing, rows of other users *)

Lemma progress_absent (uid : Z) (ps : list progress_row) :
  ~ In uid (map p_user_id ps) ->
  forall p, In p ps -> (p_user_id p =? uid) = false.
Proof.
  intros H p Hp. apply Z.eqb_neq. intros E. apply H. rewrite <- E.
  now apply in_map.
Qed.

(** X4: for a [user_id] within the 64-bit range that has no progress row,
    [get_user_progress] returns points 0 and three empty lists instead of
    failing, and leaves the store as it was. *)
Theorem get_user_progress_default (e : env) (d : db) (uid : Z) :
  fits_int64 uid = true ->
  ~ In uid (map p_user_id (user_progress d)) ->
  run e d (get_user_progress uid) = (Ok (mk_progress_dict 0 [] [] []), d).
Proof.
  intros Hf Hno. rewrite get_user_progress_run, Hf.
  now rewrite (filter_nil_when _ _ (progress_absent _ _ Hno)).
Qed.

Lemma get_user_progress_default_witness :
  run env0 store_ann (get_user_progress 5)
    = (Ok (mk_progress_dict 0 [] [] []), store_ann).
Proof.
  apply (get_user_progress_default env0 store_ann 5).
  - reflexivity.
  - simpl. intros [H|[]]. discriminate.
Defined.

(** X5: [update_user_progress] for a [user_id] that has no progress row
    returns [True] although it writes nothing: no row is created, the store
    is as it was, and [get_user_progress] still returns the defaults, not
    the values passed. *)
Theorem update_user_progress_without_row (e e' : env) (d : db)
    (uid points : Z) (tutorials challenges emojis : list string) :
  fits_int64 uid = true ->
  fits_int64 points = true ->
  ~ In uid (map p_user_id (user_progress d)) ->
  run e d (update_user_progress uid points tutorials challenges emojis)
    = (Ok true, d) /\
  run e' d (get_user_progress uid) = (Ok (mk_progress_dict 0 [] [] []), d).
Proof.
  intros Hu Hp Hno. split; [|now apply get_user_progress_default].
  rewrite update_user_progress_run, Hu, Hp. cbn. unfold with_progress.
  rewrite (map_id_when _ _ _ (progress_absent _ _ Hno)).
  now rewrite db_eta.
Qed.

Lemma update_user_progress_without_row_witness :
  run env0 store_ann (update_user_progress 5 10 ["intro"] [] [])
    = (Ok true, store_ann) /\
  run env0 store_ann (get_user_progress 5)
    = (Ok (mk_progress_dict 0 [] [] []), store_ann).
Proof.
  apply (update_user_progress_without_row env0 env0 store_ann 5 10 ["intro"]
           [] []).
  - reflexivity.
  - reflexivity.
  - simpl. intros [H|[]]. discriminate.
Defined.

Lemma filter_rewritten_other {A} (t t' : A -> bool) (f : A -> A) (l : list A) :
  (forall x, t x = true -> t' x = false) ->
  (forall x, t x = true -> t' (f x) = false) ->
  filter t' (map (fun x => if t x then f x else x) l) = filter t' l.
Proof.
  intros H1 H2. induction l as [|x l IH]; simpl; [reflexivity|].
  destruct (t x) eqn:E.
  - now rewrite (H1 x E), (H2 x E).
  - now rewrite IH.
Qed.

(** X6: [update_user_progress] for one user leaves the progress of every
    other user: what [get_user_progress] returns for another id is the same
    before and after the update. *)
Theorem update_user_progress_other_user (e e' : env) (d : db)
    (uid uid' points : Z) (tutorials challenges emojis : list string) :
  uid' <> uid ->
  fst (run e'
         (snd (run e d (update_user_progress uid points tutorials challenges
                          emojis)))
         (get_user_progress uid'))
  = fst (run e' d (get_user_progress uid')).
Proof.
  intros Hne. rewrite update_user_progress_run.
  destruct (fits_int64 points && fits_int64 uid); [|reflexivity].
  rewrite !get_user_progress_run. unfold with_progress. cbn.
  rewrite filter_rewritten_other.
  - destruct (fits_int64 uid'); [|reflexivity].
    destruct (fetchone _) as [p|]; [|reflexivity].
    destruct (Json.json_loads (p_completed_tutorials p)),
      (Json.json_loads (p_completed_challenges p)),
      (Json.json_loads (p_emoji_collection p)); reflexivity.
  - intros p Hp. apply Z.eqb_eq in Hp. apply Z.eqb_neq. lia.
  - intros p Hp. apply Z.eqb_eq in Hp. cbn. apply Z.eqb_neq. lia.
Qed.

Lemma update_user_progress_other_user_witness :
  fst (run env0
         (snd (run env0 store_ann
                 (update_user_progress 2 10 ["intro"] [] [])))
         (get_user_progress 1))
  = fst (run env0 store_ann (get_user_progress 1)).
Proof.
  apply (update_user_progress_other_user env0 env0 store_ann 2 1 10 ["intro"]
           [] []).
  discriminate.
Defined.

(** ** Updates of one user, read back *)

Lemma filter_map_commute {A} (t : A -> bool) (g : A -> A) (l : list A) :
  (forall x, t (g x) = t x) -> filter t (map g l) = map g (filter t l).
Proof.
  intros H. induction l as [|x l IH]; simpl; [reflexivity|].
  rewrite H. destruct (t x); simpl; now rewrite IH.
Qed.

Lemma fetchone_map {A B} (g : A -> B) (l : list A) :
  fetchone (map g l) = option_map g (fetchone l).
Proof. destruct l; reflexivity. Qed.

(** The row of [user_id] as [get_user_by_id] finds it after an UPDATE that
    rewrites the rows of that id and keeps their id. *)
Lemma row_after_update (uid : Z) (f : user_row -> user_row)
    (us : list user_row) :
  (forall u, u_id (f u) = u_id u) ->
  fetchone (filter (fun u => u_id u =? uid)
              (map (fun u => if u_id u =? uid then f u else u) us))
  = option_map f (fetchone (filter (fun u => u_id u =? uid) us)).
Proof.
  intros Hid. induction us as [|u us IH]; simpl; [reflexivity|].
  destruct (u_id u =? uid) eqn:E; simpl.
  - now rewrite Hid, E.
  - now rewrite E.
Qed.

Lemma get_user_by_id_found (e : env) (d : db) (uid : Z) (a : admin_user_dict) :
  run e d (get_user_by_id uid) = (Ok (Some a), d) ->
  fits_int64 uid = true /\ is_admin_column d = true /\
  exists u, fetchone (filter (fun u => u_id u =? uid) (users d)) = Some u /\
            admin_dict_of u = a.
Proof.
  rewrite get_user_by_id_run.
  destruct (fits_int64 uid); [|discriminate].
  destruct (is_admin_column d); [|discriminate].
  destruct (fetchone _) as [u|]; [|discriminate].
  intros [= <-]. eauto.
Qed.

(** X7: for a user that [get_user_by_id] finds, [set_admin_status] returns
    [True] and [get_user_by_id] then gives the same user with [is_admin]
    as set, every other field as before. *)
Theorem set_admin_status_then_get_user_by_id (e e' : env) (d : db) (uid : Z)
    (flag : bool) (a : admin_user_dict) :
  run e' d (get_user_by_id uid) = (Ok (Some a), d) ->
  exists d1,
    run e d (set_admin_status uid flag) = (Ok true, d1) /\
    run e' d1 (get_user_by_id uid) =
    (Ok (Some (mk_admin_user_dict (ad_id a) (ad_username a) (ad_full_name a)
                 (ad_parent_name a) (ad_dob a) (ad_class a) (ad_section a)
                 (ad_school a) flag (ad_created_at a) (ad_last_login a))),
     d1).
Proof.
  intros Hget.
  destruct (get_user_by_id_found e' d uid a Hget) as [Hf [Hcol [u [Hu <-]]]].
  rewrite set_admin_status_run, Hf. unfold update_is_admin, need_is_admin.
  rewrite Hcol. eexists. split; [reflexivity|].
  rewrite get_user_by_id_run, Hf. unfold with_users. cbn.
  rewrite (row_after_update uid (set_is_admin flag)), Hu; reflexivity.
Qed.

Lemma set_admin_status_then_get_user_by_id_witness :
  exists d1,
    run env0 store_ann (set_admin_status 1 true) = (Ok true, d1) /\
    run env0 d1 (get_user_by_id 1) =
    (Ok (Some (mk_admin_user_dict 1 "ann" None None None None None None true
                 1700000000 None)), d1).
Proof.
  apply (set_admin_status_then_get_user_by_id env0 env0 store_ann 1 true
           (mk_admin_user_dict 1 "ann" None None None None None None false
              1700000000 None)).
  reflexivity.
Defined.

(** X8: for a user that [get_user_by_id] finds, [update_user_profile]
    returns [True] and overwrites all six profile fields: each is then the
    value of its key in the dict passed, the empty string (not NULL) for a
    key that is missing; the other fields are as before. *)
Theorem update_user_profile_then_get_user_by_id (e e' : env) (d : db)
    (uid : Z) (p : profile) (a : admin_user_dict) :
  run e' d (get_user_by_id uid) = (Ok (Some a), d) ->
  exists d1,
    run e d (update_user_profile uid p) = (Ok true, d1) /\
    run e' d1 (get_user_by_id uid) =
    (Ok (Some (mk_admin_user_dict (ad_id a) (ad_username a)
                 (Some (dict_get p "full_name"))
                 (Some (dict_get p "parent_name"))
                 (Some (dict_get p "dob")) (Some (dict_get p "class"))
                 (Some (dict_get p "section")) (Some (dict_get p "school"))
                 (ad_is_admin a) (ad_created_at a) (ad_last_login a))),
     d1).
Proof.
  intros Hget.
  destruct (get_user_by_id_found e' d uid a Hget) as [Hf [Hcol [u [Hu <-]]]].
  rewrite update_user_profile_run, Hf. unfold update_profile_stmt.
  eexists. split; [reflexivity|].
  rewrite get_user_by_id_run, Hf. unfold with_users. cbn. rewrite Hcol.
  rewrite (row_after_update uid
             (fun u => mk_user (u_id u) (u_username u) (u_password_hash u)
                         (Some (dict_get p "full_name"))
                         (Some (dict_get p "parent_name"))
                         (Some (dict_get p "dob")) (Some (dict_get p "class"))
                         (Some (dict_get p "section"))
                         (Some (dict_get p "school"))
                         (u_is_admin u) (u_created_at u) (u_last_login u))),
    Hu; reflexivity.
Qed.

Lemma update_user_profile_then_get_user_by_id_witness :
  exists d1,
    run env0 store_ann (update_user_profile 1 [("full_name", "Ann Lee")])
      = (Ok true, d1) /\
    run env0 d1 (get_user_by_id 1) =
    (Ok (Some (mk_admin_user_dict 1 "ann" (Some "Ann Lee") (Some EmptyString)
                 (Some EmptyString) (Some EmptyString) (Some EmptyString)
                 (Some EmptyString) false 1700000000 None)), d1).
Proof.
  apply (update_user_profile_then_get_user_by_id env0 env0 store_ann 1
           [("full_name", "Ann Lee")]
           (mk_admin_user_dict 1 "ann" None None None None None None false
              1700000000 None)).
  reflexivity.
Defined.

(** X9: for a user that [get_user_by_id] finds, [update_last_login] sets
    [last_login] to the time of the call and leaves the other fields. *)
Theorem update_last_login_then_get_user_by_id (e e' : env) (d : db) (uid : Z)
    (a : admin_user_dict) :
  run e' d (get_user_by_id uid) = (Ok (Some a), d) ->
  exists d1,
    run e d (update_last_login uid) = (Ok tt, d1) /\
    run e' d1 (get_user_by_id uid) =
    (Ok (Some (mk_admin_user_dict (ad_id a) (ad_username a) (ad_full_name a)
                 (ad_parent_name a) (ad_dob a) (ad_class a) (ad_section a)
                 (ad_school a) (ad_is_admin a) (ad_created_at a)
                 (Some (clock e 0%nat)))),
     d1).
Proof.
  intros Hget.
  destruct (get_user_by_id_found e' d uid a Hget) as [Hf [Hcol [u [Hu <-]]]].
  rewrite update_last_login_run, Hf.
  eexists. split; [reflexivity|].
  rewrite get_user_by_id_run, Hf. unfold with_users, logged_in. cbn.
  rewrite Hcol.
  rewrite (row_after_update uid
             (fun u => mk_user (u_id u) (u_username u) (u_password_hash u)
                         (u_full_name u) (u_parent_name u) (u_dob u)
                         (u_class u) (u_section u) (u_school u)
                         (u_is_admin u) (u_created_at u)
                         (Some (clock e 0%nat)))),
    Hu; reflexivity.
Qed.

Lemma update_last_login_then_get_user_by_id_witness :
  exists d1,
    run env_later store_ann (update_last_login 1) = (Ok tt, d1) /\
    run env0 d1 (get_user_by_id 1) =
    (Ok (Some (mk_admin_user_dict 1 "ann" None None None None None None false
                 1700000000 (Some 1700000600))), d1).
Proof.
  apply (update_last_login_then_get_user_by_id env_later env0 store_ann 1
           (mk_admin_user_dict 1 "ann" None None None None None None false
              1700000000 None)).
  reflexivity.
Defined.

Lemma get_user_found (e : env) (d : db) (username : string) (ud : user_dict) :
  run e d (get_user username) = (Ok (Some ud), d) ->
  is_admin_column d = true /\
  exists u,
    fetchone (filter (fun u => String.eqb (u_username u) username) (users d))
      = Some u /\
    user_dict_of u = ud.
Proof.
  rewrite get_user_run.
  destruct (is_admin_column d); [|discriminate].
  destruct (fetchone _) as [u|]; [|discriminate].
  intros [= <-]. eauto.
Qed.

(** X10: for a user that [get_user] finds and whose id is within the 64-bit
    range, [reset_user_password] on that id returns [True]; [get_user] then
    gives the new hash and the other fields as before, and one
    password_reset event of that id has been appended to [user_events]. *)
Theorem reset_user_password_then_get_user (e e' : env) (d : db)
    (username new_hash : string) (ud : user_dict) :
  run e' d (get_user username) = (Ok (Some ud), d) ->
  fits_int64 (ud_id ud) = true ->
  exists d1,
    run e d (reset_user_password (ud_id ud) new_hash) = (Ok true, d1) /\
    run e' d1 (get_user username) =
    (Ok (Some (mk_user_dict (ud_id ud) (ud_username ud) new_hash
                 (ud_full_name ud) (ud_parent_name ud) (ud_dob ud)
                 (ud_class ud) (ud_section ud) (ud_school ud)
                 (ud_is_admin ud))), d1) /\
    user_events d1 =
      (user_events d ++
       [mk_event (seq_user_events d + 1) (ud_id ud) "password_reset"
          (Some "Password was reset by administrator") (clock e 0%nat)])%list.
Proof.
  intros Hget Hf.
  destruct (get_user_found e' d username ud Hget) as [Hcol [u [Hu <-]]].
  cbn in Hf |- *.
  rewrite reset_user_password_run, Hf. unfold update_password_stmt, logged.
  rewrite Hf. eexists. split; [reflexivity|]. split; [|reflexivity].
  rewrite get_user_run. unfold with_users. cbn. rewrite Hcol.
  rewrite (filter_map_commute
             (fun x => String.eqb (u_username x) username)
             (fun x => if u_id x =? u_id u
                       then mk_user (u_id x) (u_username x) new_hash
                              (u_full_name x) (u_parent_name x) (u_dob x)
                              (u_class x) (u_section x) (u_school x)
                              (u_is_admin x) (u_created_at x) (u_last_login x)
                       else x)).
  - rewrite fetchone_map, Hu. cbn. rewrite Z.eqb_refl. reflexivity.
  - intros x. destruct (u_id x =? u_id u); reflexivity.
Qed.

Lemma reset_user_password_then_get_user_witness :
  exists d1,
    run env0 store_ann (reset_user_password 1 "h2") = (Ok true, d1) /\
    run env0 d1 (get_user "ann") =
    (Ok (Some (mk_user_dict 1 "ann" "h2" None None None None None None false)),
     d1) /\
    user_events d1 =
      (user_events store_ann ++
       [mk_event (seq_user_events store_ann + 1) 1 "password_reset"
          (Some "Password was reset by administrator") 1700000000])%list.
Proof.
  apply (reset_user_password_then_get_user env0 env0 store_ann "ann" "h2"
           (mk_user_dict 1 "ann" "h" None None None None None None false)).
  - reflexivity.
  - reflexivity.
Defined.

(** The rows of another id after an UPDATE keyed by [uid]. *)
Lemma other_rows_after_update (uid uid' : Z) (f : user_row -> user_row)
    (us : list user_row) :
  (forall u, u_id (f u) = u_id u) ->
  uid' <> uid ->
  filter (fun u => u_id u =? uid')
         (map (fun u => if u_id u =? uid then f u else u) us)
  = filter (fun u => u_id u =? uid') us.
Proof.
  intros Hid Hne. induction us as [|u us IH]; simpl; [reflexivity|].
  destruct (u_id u =? uid) eqn:E.
  - apply Z.eqb_eq in E.
    assert (E1 : (u_id u =? uid') = false) by (apply Z.eqb_neq; lia).
    now rewrite Hid, E1, IH.
  - now rewrite IH.
Qed.

(** X11: the four updates keyed by a user id change the rows of that id
    only: for every other id, [get_user_by_id] returns after
    [update_user_profile], [set_admin_status], [reset_user_password] or
    [update_last_login] what it returned before. *)
Theorem id_keyed_updates_leave_other_users (e e' : env) (d : db)
    (uid uid' : Z) :
  uid' <> uid ->
  (forall p,
     fst (run e' (snd (run e d (update_user_profile uid p)))
            (get_user_by_id uid'))
     = fst (run e' d (get_user_by_id uid'))) /\
  (forall flag,
     fst (run e' (snd (run e d (set_admin_status uid flag)))
            (get_user_by_id uid'))
     = fst (run e' d (get_user_by_id uid'))) /\
  (forall h,
     fst (run e' (snd (run e d (reset_user_password uid h)))
            (get_user_by_id uid'))
     = fst (run e' d (get_user_by_id uid'))) /\
  fst (run e' (snd (run e d (update_last_login uid))) (get_user_by_id uid'))
  = fst (run e' d (get_user_by_id uid')).
Proof.
  intros Hne. repeat split.
  - intros p. rewrite update_user_profile_run.
    destruct (fits_int64 uid); [|reflexivity].
    unfold update_profile_stmt. rewrite !get_user_by_id_run.
    unfold with_users. cbn.
    rewrite other_rows_after_update; [|reflexivity|assumption].
    destruct (fits_int64 uid'), (is_admin_column d); reflexivity.
  - intros flag. rewrite set_admin_status_run.
    destruct (fits_int64 uid); [|reflexivity].
    unfold update_is_admin, need_is_admin.
    destruct (is_admin_column d) eqn:Hcol; [|reflexivity].
    rewrite !get_user_by_id_run. unfold with_users. cbn.
    rewrite other_rows_after_update; [|reflexivity|assumption].
    rewrite Hcol. destruct (fits_int64 uid'); reflexivity.
  - intros h. rewrite reset_user_password_run.
    destruct (fits_int64 uid) eqn:Hf; [|reflexivity].
    unfold update_password_stmt, logged. rewrite Hf.
    rewrite !get_user_by_id_run. unfold with_users. cbn.
    rewrite other_rows_after_update; [|reflexivity|assumption].
    destruct (fits_int64 uid'), (is_admin_column d); reflexivity.
  - rewrite update_last_login_run.
    destruct (fits_int64 uid); [|reflexivity].
    rewrite !get_user_by_id_run. unfold with_users. cbn.
    unfold logged_in.
    rewrite other_rows_after_update; [|reflexivity|assumption].
    destruct (fits_int64 uid'), (is_admin_column d); reflexivity.
Qed.

Lemma id_keyed_updates_leave_other_users_witness :
  fst (run env0 (snd (run env0 store_ann (update_last_login 2)))
         (get_user_by_id 1))
  = fst (run env0 store_ann (get_user_by_id 1)).
Proof.
  apply (id_keyed_updates_leave_other_users env0 env0 store_ann 2 1).
  discriminate.
Defined.

(** X12: the methods that have no [except] clause let the error of the
    binding through: for a [user_id] outside the signed 64-bit range,
    [get_user_progress], [get_user_events], [get_user_certificates],
    [get_user_by_id] and [update_last_login] raise [OverflowError] (where
    the methods with [except Exception] return [False]); the store is left
    as it was. *)
Theorem unguarded_methods_raise_overflow (e : env) (d : db) (uid : Z) :
  fits_int64 uid = false ->
  run e d (get_user_progress uid) = (Raise OverflowError, d) /\
  (forall limit,
     run e d (get_user_events uid limit) = (Raise OverflowError, d)) /\
  run e d (get_user_certificates uid) = (Raise OverflowError, d) /\
  run e d (get_user_by_id uid) = (Raise OverflowError, d) /\
  run e d (update_last_login uid) = (Raise OverflowError, d).
Proof.
  intros Hf.
  rewrite get_user_progress_run, get_user_certificates_run,
    get_user_by_id_run, update_last_login_run, Hf.
  repeat split. intros limit. now rewrite get_user_events_run, Hf.
Qed.

Lemma unguarded_methods_raise_overflow_witness :
  run env0 store_ann (get_user_progress (2 ^ 63))
    = (Raise OverflowError, store_ann) /\
  (forall limit,
     run env0 store_ann (get_user_events (2 ^ 63) limit)
       = (Raise OverflowError, store_ann)) /\
  run env0 store_ann (get_user_certificates (2 ^ 63))
    = (Raise OverflowError, store_ann) /\
  run env0 store_ann (get_user_by_id (2 ^ 63))
    = (Raise OverflowError, store_ann) /\
  run env0 store_ann (update_last_login (2 ^ 63))
    = (Raise OverflowError, store_ann).
Proof.
  apply (unguarded_methods_raise_overflow env0 store_ann (2 ^ 63)).
  reflexivity.
Defined.

(** ** Listings *)

Lemma insert_desc_perm {A} (key : A -> Z) (x : A) (l : list A) :
  Permutation (insert_desc key x l) (x :: l).
Proof.
  induction l as [|y l IH]; simpl; [apply Permutation_refl|].
  destruct (key y <=? key x); [apply Permutation_refl|].
  eapply Permutation_trans; [apply perm_skip, IH | apply perm_swap].
Qed.

(** ORDER BY returns the rows it was given, each once. *)
Lemma order_by_desc_perm {A} (key : A -> Z) (l : list A) :
  Permutation (order_by_desc key l) l.
Proof.
  induction l as [|x l IH]; simpl; [constructor|].
  eapply Permutation_trans; [apply insert_desc_perm | now apply perm_skip].
Qed.

Lemma limit_rows_in {A} (n : Z) (l : list A) (x : A) :
  In x (limit_rows n l) -> In x l.
Proof.
  unfold limit_rows. destruct (n <? 0); [auto|].
  revert l. induction (Z.to_nat n) as [|k IH]; intros l; simpl; [tauto|].
  destruct l as [|y l]; simpl; [tauto|]. intros [H|H]; auto.
Qed.

Lemma limit_rows_all {A} (n : Z) (l : list A) :
  n < 0 \/ Z.of_nat (List.length l) <= n -> limit_rows n l = l.
Proof.
  intros H. unfold limit_rows. destruct (n <? 0) eqn:E; [reflexivity|].
  apply Z.ltb_ge in E. apply firstn_all2. lia.
Qed.

(** X13: [get_user_events] returns events of the user asked for only, each
    as it is stored; with a negative [limit] it returns all of them, each
    once. *)
Theorem get_user_events_of_that_user (e : env) (d : db) (uid limit : Z) :
  fits_int64 uid = true ->
  fits_int64 limit = true ->
  exists events,
    run e d (get_user_events uid limit) = (Ok events, d) /\
    (forall x, In x events ->
       exists ev, In ev (user_events d) /\ e_user_id ev = uid /\
                  event_dict_of ev = x) /\
    (limit < 0 ->
     Permutation events
       (map event_dict_of
          (filter (fun ev => e_user_id ev =? uid) (user_events d)))).
Proof.
  intros Hu Hl. rewrite get_user_events_run, Hu, Hl. cbn.
  eexists. split; [reflexivity|]. split.
  - intros x Hx. apply in_map_iff in Hx. destruct Hx as [ev [<- Hev]].
    apply limit_rows_in in Hev.
    apply (Permutation_in _ (order_by_desc_perm e_timestamp _)) in Hev.
    apply filter_In in Hev. destruct Hev as [Hin Hid].
    exists ev. split; [assumption|]. split; [now apply Z.eqb_eq | reflexivity].
  - intros Hneg. rewrite limit_rows_all by (now left).
    apply Permutation_map, order_by_desc_perm.
Qed.

Lemma get_user_events_of_that_user_witness :
  exists events,
    run env0 store_two_events (get_user_events 1 (-1))
      = (Ok events, store_two_events) /\
    (forall x, In x events ->
       exists ev, In ev (user_events store_two_events) /\ e_user_id ev = 1 /\
                  event_dict_of ev = x) /\
    (-1 < 0 ->
     Permutation events
       (map event_dict_of
          (filter (fun ev => e_user_id ev =? 1)
                  (user_events store_two_events)))).
Proof.
  apply (get_user_events_of_that_user env0 store_two_events 1 (-1));
    reflexivity.
Defined.

(** X14: an event logged with [log_event] for a user id within the 64-bit
    range is returned by [get_user_events] for that user, with its type,
    details and the time of the insert, whenever [limit] is negative or is
    more than the number of events the user had before. *)
Theorem log_event_then_get_user_events (e e' : env) (d : db) (uid limit : Z)
    (ty : string) (det : option string) :
  fits_int64 uid = true ->
  fits_int64 limit = true ->
  limit < 0 \/
  Z.of_nat (List.length (filter (fun ev => e_user_id ev =? uid) (user_events d)))
    < limit ->
  exists d1 events,
    run e d (log_event uid ty det) = (Ok tt, d1) /\
    run e' d1 (get_user_events uid limit) = (Ok events, d1) /\
    In (mk_event_dict ty det (clock e 0%nat)) events.
Proof.
  intros Hu Hl Hlim. rewrite log_event_run. unfold logged. rewrite Hu.
  eexists. eexists. split; [reflexivity|].
  rewrite get_user_events_run, Hu, Hl. cbn. split; [reflexivity|].
  rewrite filter_app. cbn. rewrite Z.eqb_refl.
  rewrite limit_rows_all.
  - apply in_map_iff.
    exists (mk_event (seq_user_events d + 1) uid ty det (clock e 0%nat)).
    split; [reflexivity|].
    apply (Permutation_in _ (Permutation_sym (order_by_desc_perm _ _))).
    apply in_or_app. right. now left.
  - destruct Hlim as [Hlim|Hlim]; [now left | right].
    fold (order_by_desc e_timestamp
            (filter (fun ev => e_user_id ev =? uid) (user_events d) ++
             [mk_event (seq_user_events d + 1) uid ty det (clock e 0%nat)])).
    rewrite (Permutation_length (order_by_desc_perm e_timestamp _)).
    rewrite length_app. cbn. lia.
Qed.

Lemma log_event_then_get_user_events_witness :
  exists d1 events,
    run env0 store_ann (log_event 1 "login" (Some "from school")) = (Ok tt, d1) /\
    run env0 d1 (get_user_events 1 50) = (Ok events, d1) /\
    In (mk_event_dict "login" (Some "from school") 1700000000) events.
Proof.
  apply (log_event_then_get_user_events env0 env0 store_ann 1 50 "login"
           (Some "from school")).
  - reflexivity.
  - reflexivity.
  - right. simpl. lia.
Defined.

(** X15: for a [user_id] within the 64-bit range, [get_user_certificates]
    returns every certificate of that user once and no other, the most
    recently issued first, and the [is_completed] flag of each entry tells
    whether its [completed_date] is set. *)
Theorem get_user_certificates_complete_and_ordered (e : env) (d : db)
    (uid : Z) :
  fits_int64 uid = true ->
  exists certs,
    run e d (get_user_certificates uid) = (Ok certs, d) /\
    Permutation certs
      (map cert_dict_of
         (filter (fun c => c_user_id c =? uid) (certificates d))) /\
    newest_first (map cd_issue_date certs) /\
    Forall (fun c => cd_is_completed c = is_not_none (cd_completed_date c))
           certs.
Proof.
  intros Hu. rewrite get_user_certificates_run, Hu.
  eexists. split; [reflexivity|]. split; [|split].
  - apply Permutation_map, order_by_desc_perm.
  - rewrite map_map. cbn. apply sorted_keys, order_by_desc_sorted.
  - apply Forall_forall. intros x Hx. apply in_map_iff in Hx.
    destruct Hx as [c [<- _]]. reflexivity.
Qed.

Lemma get_user_certificates_complete_and_ordered_witness :
  exists certs,
    run env0 store_completed (get_user_certificates 1)
      = (Ok certs, store_completed) /\
    Permutation certs
      (map cert_dict_of
         (filter (fun c => c_user_id c =? 1) (certificates store_completed))) /\
    newest_first (map cd_issue_date certs) /\
    Forall (fun c => cd_is_completed c = is_not_none (cd_completed_date c))
           certs.
Proof.
  apply (get_user_certificates_complete_and_ordered env0 store_completed 1).
  reflexivity.
Defined.

(** X16: on a store that has run its initialization, [get_all_users]
    returns every user once, the most recently created first. *)
Theorem get_all_users_complete_and_ordered (e : env) (d : db) :
  is_admin_column d = true ->
  exists all_users,
    run e d get_all_users = (Ok all_users, d) /\
    Permutation all_users (map admin_dict_of (users d)) /\
    newest_first (map ad_created_at all_users).
Proof.
  intros Hcol. rewrite get_all_users_run, Hcol.
  eexists. split; [reflexivity|]. split.
  - apply Permutation_map, order_by_desc_perm.
  - rewrite map_map. cbn. apply sorted_keys, order_by_desc_sorted.
Qed.

Lemma get_all_users_complete_and_ordered_witness :
  exists all_users,
    run env0 store_ann get_all_users = (Ok all_users, store_ann) /\
    Permutation all_users (map admin_dict_of (users store_ann)) /\
    newest_first (map ad_created_at all_users).
Proof.
  apply (get_all_users_complete_and_ordered env0 store_ann). reflexivity.
Defined.

(** ** Certificates: collisions and completion *)

Lemma code_present (code : string) (cs : list cert_row) :
  In code (map c_certificate_code cs) ->
  existsb (fun c => String.eqb (c_certificate_code c) code) cs = true.
Proof.
  intros Hin. apply in_map_iff in Hin. destruct Hin as [c [Hc Hin]].
  apply existsb_exists. exists c. split; [assumption|].
  now apply String.eqb_eq.
Qed.

(** X17: when the generated code is already the code of a certificate, or
    the [user_id] is outside the 64-bit range, [create_certificate] returns
    [None] instead of raising, and stores neither a certificate nor an
    event. *)
Theorem create_certificate_failure (e : env) (d : db) (uid : Z) (ty : string) :
  In (uuid4 e) (map c_certificate_code (certificates d)) \/
  fits_int64 uid = false ->
  run e d (create_certificate uid ty) = (Ok None, d).
Proof.
  intros H. rewrite create_certificate_run.
  destruct (fits_int64 uid); [|reflexivity].
  destruct H as [H|H]; [|discriminate].
  now rewrite (code_present _ _ H).
Qed.

Lemma create_certificate_failure_witness :
  run env0 store_completed (create_certificate 1 "loops") = (Ok None, store_completed).
Proof.
  apply (create_certificate_failure env0 store_completed 1 "loops").
  left. simpl. left. reflexivity.
Defined.

Lemma same_code_same_row (cs : list cert_row) (c c' : cert_row) :
  NoDup (map c_certificate_code cs) ->
  In c cs -> In c' cs ->
  c_certificate_code c' = c_certificate_code c -> c' = c.
Proof.
  induction cs as [|x cs IH]; intros Hnd Hc Hc' Hcode; [destruct Hc|].
  simpl in Hnd. apply NoDup_cons_iff in Hnd. destruct Hnd as [Hx Hnd].
  destruct Hc as [<-|Hc], Hc' as [<-|Hc'].
  - reflexivity.
  - exfalso. apply Hx. rewrite <- Hcode. now apply in_map.
  - exfalso. apply Hx. rewrite Hcode. now apply in_map.
  - now apply IH.
Qed.

(** X18: with codes unique, [complete_certificate] on the code of a
    certificate returns [True], sets the completion date of that
    certificate to the time of the call, leaves every other certificate as
    it was, adds or removes none, and appends one certificate_completed
    event of the certificate's user.  The user id of the certificate is
    within the 64-bit range, as [create_certificate] stores it. *)
Theorem complete_certificate_effect_on_rows (e : env) (d : db) (c : cert_row) :
  NoDup (map c_certificate_code (certificates d)) ->
  In c (certificates d) ->
  fits_int64 (c_user_id c) = true ->
  exists d1,
    run e d (complete_certificate (c_certificate_code c)) = (Ok true, d1) /\
    In (mk_cert (c_id c) (c_user_id c) (c_certificate_type c) (c_issue_date c)
          (c_certificate_code c) (Some (clock e 0%nat)))
       (certificates d1) /\
    (forall c', In c' (certificates d) -> c' <> c -> In c' (certificates d1)) /\
    List.length (certificates d1) = List.length (certificates d) /\
    user_events d1 =
      (user_events d ++
       [mk_event (seq_user_events d + 1) (c_user_id c) "certificate_completed"
          (Some ("Certificate of type '" ++ c_certificate_type c ++
                 "' with code " ++ c_certificate_code c ++ " completed")%string)
          (clock e 1%nat)])%list.
Proof.
  intros Hnd Hin Hf.
  assert (Hfirst :
    fetchone (filter (fun x => String.eqb (c_certificate_code x)
                                 (c_certificate_code c))
                (map (completed_at (clock e 0%nat) (c_certificate_code c))
                     (certificates d)))
    = Some (completed_at (clock e 0%nat) (c_certificate_code c) c)).
  { rewrite filter_map_commute
      by (intros x; unfold completed_at;
          destruct (String.eqb (c_certificate_code x) (c_certificate_code c))
            eqn:E; cbn; now rewrite ?E).
    rewrite fetchone_map.
    assert (Hc : fetchone (filter (fun x => String.eqb (c_certificate_code x)
                                              (c_certificate_code c))
                             (certificates d)) = Some c).
    { destruct (filter _ (certificates d)) as [|x l] eqn:E.
      - exfalso. assert (Hc : In c []); [|exact Hc].
        rewrite <- E. apply filter_In. split; [assumption|].
        apply String.eqb_refl.
      - cbn. f_equal.
        assert (Hx : In x (filter (fun x => String.eqb (c_certificate_code x)
                                               (c_certificate_code c))
                             (certificates d))) by (rewrite E; now left).
        apply filter_In in Hx. destruct Hx as [Hx1 Hx2].
        apply String.eqb_eq in Hx2. now apply (same_code_same_row _ c x Hnd). }
    now rewrite Hc. }
  rewrite complete_certificate_run. cbv zeta. unfold with_certificates at 1.
  cbn [certificates]. rewrite Hfirst.
  assert (Hc' : completed_at (clock e 0%nat) (c_certificate_code c) c =
                mk_cert (c_id c) (c_user_id c) (c_certificate_type c)
                  (c_issue_date c) (c_certificate_code c)
                  (Some (clock e 0%nat))).
  { unfold completed_at. now rewrite String.eqb_refl. }
  rewrite Hc'. cbn [c_user_id c_certificate_type]. unfold logged. rewrite Hf.
  eexists. split; [reflexivity|]. cbn. split; [|split; [|split]].
  - rewrite <- Hc'. now apply in_map.
  - intros c' Hc'in Hne.
    assert (Hsame : completed_at (clock e 0%nat) (c_certificate_code c) c' = c').
    { unfold completed_at.
      destruct (String.eqb (c_certificate_code c') (c_certificate_code c)) eqn:E;
        [|reflexivity].
      apply String.eqb_eq in E. exfalso. apply Hne.
      now apply (same_code_same_row _ c c' Hnd). }
    rewrite <- Hsame. now apply in_map.
  - apply length_map.
  - reflexivity.
Qed.

Lemma complete_certificate_effect_on_rows_witness :
  exists d1,
    run env_later store_completed (complete_certificate "c0de") = (Ok true, d1) /\
    In (mk_cert 1 1 "python-basics" 1700000000 "c0de" (Some 1700000600))
       (certificates d1) /\
    (forall c', In c' (certificates store_completed) ->
                c' <> mk_cert 1 1 "python-basics" 1700000000 "c0de"
                        (Some 1700000000) ->
                In c' (certificates d1)) /\
    List.length (certificates d1) = List.length (certificates store_completed) /\
    user_events d1 =
      (user_events store_completed ++
       [mk_event (seq_user_events store_completed + 1) 1 "certificate_completed"
          (Some ("Certificate of type '" ++ "python-basics" ++
                 "' with code " ++ "c0de" ++ " completed")%string)
          1700000600])%list.
Proof.
  apply (complete_certificate_effect_on_rows env_later store_completed
           (mk_cert 1 1 "python-basics" 1700000000 "c0de" (Some 1700000000))).
  - simpl. constructor; [intros [] | constructor].
  - simpl. left. reflexivity.
  - reflexivity.
Defined.

(** ** Initialization *)

Lemma promoted_count (uid : Z) (us : list user_row) :
  (List.length (filter u_is_admin us)
   <= List.length
        (filter u_is_admin
           (map (fun u => if (u_id u =? uid)%Z then set_is_admin true u else u)
                us)))%nat.
Proof.
  induction us as [|u us IH]; simpl; [lia|].
  destruct (u_id u =? uid); simpl.
  - destruct (u_is_admin u); simpl; lia.
  - destruct (u_is_admin u); simpl; lia.
Qed.

(** X19: [initialize_database] is idempotent: on the store a run of it has
    left, a second run returns normally and changes nothing, whatever the
    first store was. *)
Theorem initialize_database_idempotent (e1 e2 : env) (d d1 : db) :
  run e1 d initialize_database = (Ok tt, d1) ->
  run e2 d1 initialize_database = (Ok tt, d1).
Proof.
  rewrite initialize_database_run. cbv zeta.
  destruct d as [col us su ps sp es se cs sc].
  unfold migration1, alter_add_is_admin, promote, with_users. cbn.
  destruct col; cbn.
  - destruct (Z.of_nat (List.length (filter u_is_admin us)) =? 0) eqn:Hcount.
    + destruct us as [|u us]; cbn.
      * intros [= <-]. reflexivity.
      * destruct (fits_int64 (u_id u)); [|discriminate].
        intros [= <-]. rewrite initialize_database_run. cbn.
        rewrite Z.eqb_refl. reflexivity.
    + intros [= <-]. rewrite initialize_database_run. cbn.
      now rewrite Hcount.
  - rewrite filter_admin_reset. cbn.
    destruct us as [|u us]; cbn.
    + intros [= <-]. reflexivity.
    + destruct (fits_int64 (u_id u)); [|discriminate].
      intros [= <-]. rewrite initialize_database_run. cbn.
      rewrite Z.eqb_refl. reflexivity.
Qed.

Lemma initialize_database_idempotent_witness :
  run env0 (snd (run env0 store_ann initialize_database)) initialize_database
  = (Ok tt, snd (run env0 store_ann initialize_database)).
Proof.
  apply (initialize_database_idempotent env0 env0 store_ann). reflexivity.
Defined.

(** X20: [initialize_database] changes nothing but admin flags: progress,
    events and certificates are as before, the users are the same in number
    and order with their ids, usernames and password hashes, and on a store
    that has the [is_admin] column the number of admins does not go down. *)
Theorem initialize_database_changes_admin_flags_only (e : env) (d : db) :
  let d1 := snd (run e d initialize_database) in
  user_progress d1 = user_progress d /\
  user_events d1 = user_events d /\
  certificates d1 = certificates d /\
  map u_id (users d1) = map u_id (users d) /\
  map u_username (users d1) = map u_username (users d) /\
  map u_password_hash (users d1) = map u_password_hash (users d) /\
  (is_admin_column d = true -> (admin_count d <= admin_count d1)%nat).
Proof.
  cbv zeta. rewrite initialize_database_run. cbv zeta.
  assert (Hmig : user_progress (migration1 d) = user_progress d /\
                 user_events (migration1 d) = user_events d /\
                 certificates (migration1 d) = certificates d /\
                 map u_id (users (migration1 d)) = map u_id (users d) /\
                 map u_username (users (migration1 d)) = map u_username (users d) /\
                 map u_password_hash (users (migration1 d))
                 = map u_password_hash (users d) /\
                 (is_admin_column d = true -> migration1 d = d)).
  { unfold migration1. destruct (is_admin_column d); cbn.
    - repeat split.
    - rewrite !map_map. cbn. repeat split. discriminate. }
  destruct Hmig as [H1 [H2 [H3 [H4 [H5 [H6 H7]]]]]].
  assert (Hpro : forall uid,
             user_progress (promote uid (migration1 d)) = user_progress d /\
             user_events (promote uid (migration1 d)) = user_events d /\
             certificates (promote uid (migration1 d)) = certificates d /\
             map u_id (users (promote uid (migration1 d))) = map u_id (users d) /\
             map u_username (users (promote uid (migration1 d)))
             = map u_username (users d) /\
             map u_password_hash (users (promote uid (migration1 d)))
             = map u_password_hash (users d) /\
             (is_admin_column d = true ->
              (admin_count d <= admin_count (promote uid (migration1 d)))%nat)).
  { intros uid. unfold promote, with_users. cbn.
    rewrite !map_rewritten by reflexivity.
    repeat (split; [assumption|]).
    intros Hcol. rewrite (H7 Hcol). unfold admin_count. cbn. rewrite Hcol.
    apply promoted_count. }
  destruct (Z.of_nat _ =? 0).
  - destruct (users (migration1 d)) as [|u us] eqn:Hus; cbn.
    + rewrite Hus. repeat (split; [assumption|]).
      intros Hcol. now rewrite (H7 Hcol).
    + destruct (fits_int64 (u_id u)); cbn.
      * apply Hpro.
      * rewrite Hus. repeat (split; [assumption|]).
        intros Hcol. now rewrite (H7 Hcol).
  - cbn. repeat (split; [assumption|]). intros Hcol. now rewrite (H7 Hcol).
Qed.

Lemma initialize_database_changes_admin_flags_only_witness :
  (admin_count store_ann
   <= admin_count (snd (run env0 store_ann initialize_database)))%nat.
Proof.
  refine (proj2 (proj2 (proj2 (proj2 (proj2 (proj2
            (initialize_database_changes_admin_flags_only env0 store_ann))))))
            _).
  reflexivity.
Defined.

(** ** What every call keeps *)

(** A property that the statements and [add_user] keep is kept by every
    call. *)
Lemma keeps_exec (P : db -> Prop) :
  users_stmts_keep P -> progress_stmts_keep P -> events_stmts_keep P ->
  cert_stmts_keep P ->
  (forall u p pd a, keeps P (add_user u p pd a)) ->
  forall e c d, P d -> P (exec e c d).
Proof.
  intros Hu Hp He Hc Hadd e c d Hd.
  unfold exec. destruct c; cbn [perform]; apply keeps_final; try assumption.
  - apply Hadd.
  - now apply keeps_get_user.
  - now apply keeps_update_last_login.
  - now apply keeps_get_user_progress.
  - now apply keeps_update_user_progress.
  - now apply keeps_log_event.
  - now apply keeps_get_user_events.
  - now apply keeps_create_certificate.
  - now apply keeps_complete_certificate.
  - now apply keeps_get_user_certificates.
  - now apply keeps_verify_certificate.
  - now apply keeps_get_all_users.
  - now apply keeps_update_user_profile.
  - now apply keeps_set_admin_status.
  - now apply keeps_get_user_by_id.
  - now apply keeps_reset_user_password.
  - now apply keeps_initialize_database.
  - now apply keeps_migrate_data_from_json.
  - now apply keeps_migrate_from_json_if_needed.
Qed.

Lemma keeps_exec_all (P : db -> Prop) :
  (forall e c d, P d -> P (exec e c d)) ->
  forall h d, P d -> P (exec_all h d).
Proof.
  intros Hstep h. induction h as [|[e c] h IH]; intros d Hd; simpl;
    [assumption|]. apply IH. now apply Hstep.
Qed.

(** X21: the event log is append-only: after any call, and so after any
    history of calls, [user_events] is what it was, followed by the events
    added; no call removes or rewrites an event. *)
Theorem user_events_append_only (h : list (env * call)) (d : db) :
  exists new, user_events (exec_all h d) = (user_events d ++ new)%list.
Proof.
  set (P := fun d' : db => exists new, user_events d' = (user_events d ++ new)%list).
  assert (Hu : users_stmts_keep P).
  { constructor;
      [ intros d0 Hd; exact Hd
      | unfold update_is_admin
      | unfold update_last_login_stmt | unfold update_profile_stmt
      | unfold update_password_stmt ]; stmt_frame. }
  assert (Hp : progress_stmts_keep P)
    by (unfold progress_stmts_keep, update_progress_stmt; stmt_frame).
  assert (He : events_stmts_keep P).
  { intros now uid ty det d0 a d' [new Hd] Hs.
    unfold insert_event in Hs. injection Hs as _ <-.
    exists (new ++ [mk_event (seq_user_events d0 + 1) uid ty det now])%list.
    cbn. now rewrite Hd, app_assoc. }
  assert (Hc : cert_stmts_keep P)
    by (constructor; [unfold insert_certificate | unfold update_completed_stmt];
        stmt_frame).
  assert (Hiu : insert_user_keeps P)
    by (unfold insert_user_keeps, insert_user; stmt_frame).
  assert (Hip : insert_progress_keeps P)
    by (unfold insert_progress_keeps, insert_progress; stmt_frame).
  apply (keeps_exec_all P).
  - apply keeps_exec; try assumption.
    intros u p pd a. now apply keeps_add_user.
  - exists []. now rewrite app_nil_r.
Qed.

(** X22: no call deletes a user or changes the id, the username or the
    creation time of one: after any history of calls the users of before
    are there, in their order, with these three fields, followed by the
    users added. *)
Theorem users_never_deleted (h : list (env * call)) (d : db) :
  exists new,
    map user_key (users (exec_all h d)) = (map user_key (users d) ++ new)%list.
Proof.
  set (P := fun d' : db =>
              exists new,
                map user_key (users d') = (map user_key (users d) ++ new)%list).
  assert (Hu : users_stmts_keep P).
  { constructor.
    - intros d0 [new Hd]. exists new. unfold alter_add_is_admin. cbn.
      now rewrite map_map.
    - unfold update_is_admin. intros b uid d0 a d' [new Hd] Hs.
      unfold need_is_admin in Hs. destruct (is_admin_column d0); [|discriminate].
      injection Hs as _ <-. exists new. cbn. now rewrite map_rewritten.
    - unfold update_last_login_stmt. intros now uid d0 a d' [new Hd] Hs.
      injection Hs as _ <-. exists new. cbn. now rewrite map_rewritten.
    - unfold update_profile_stmt.
      intros f1 f2 f3 f4 f5 f6 uid d0 a d' [new Hd] Hs.
      injection Hs as _ <-. exists new. cbn. now rewrite map_rewritten.
    - unfold update_password_stmt. intros hh uid d0 a d' [new Hd] Hs.
      injection Hs as _ <-. exists new. cbn. now rewrite map_rewritten. }
  assert (Hp : progress_stmts_keep P)
    by (unfold progress_stmts_keep, update_progress_stmt; stmt_frame).
  assert (He : events_stmts_keep P)
    by (unfold events_stmts_keep, insert_event; stmt_frame).
  assert (Hc : cert_stmts_keep P)
    by (constructor; [unfold insert_certificate | unfold update_completed_stmt];
        stmt_frame).
  assert (Hiu : insert_user_keeps P).
  { intros now u p f1 f2 f3 f4 f5 f6 a d0 r d' [new Hd] Hs.
    unfold insert_user, need_is_admin in Hs.
    destruct (is_admin_column d0); [|discriminate].
    destruct (existsb _ (users d0)); [discriminate|].
    injection Hs as _ <-.
    exists (new ++ [(seq_users d0 + 1, u, now)])%list.
    cbn. now rewrite map_app, Hd, app_assoc. }
  assert (Hip : insert_progress_keeps P)
    by (unfold insert_progress_keeps, insert_progress; stmt_frame).
  apply (keeps_exec_all P).
  - apply keeps_exec; try assumption.
    intros u p pd a. now apply keeps_add_user.
  - exists []. now rewrite app_nil_r.
Qed.

Lemma nodup_snoc {A} (l : list A) (x : A) :
  NoDup l -> ~ In x l -> NoDup (l ++ [x]).
Proof.
  intros Hl Hx. apply NoDup_app; [assumption | repeat constructor; intros [] |].
  intros a Ha [<-|[]]. contradiction.
Qed.

(** X23: certificate codes stay unique: on a store where no two
    certificates share a code, no history of calls leads to one where two
    do; [create_certificate] refuses a code in use and nothing else writes
    a code. *)
Theorem certificate_codes_stay_unique (h : list (env * call)) (d : db) :
  NoDup (map c_certificate_code (certificates d)) ->
  NoDup (map c_certificate_code (certificates (exec_all h d))).
Proof.
  set (P := fun d' : db => NoDup (map c_certificate_code (certificates d'))).
  assert (Hu : users_stmts_keep P).
  { constructor;
      [ intros d0 Hd; exact Hd
      | unfold update_is_admin
      | unfold update_last_login_stmt | unfold update_profile_stmt
      | unfold update_password_stmt ]; stmt_frame. }
  assert (Hp : progress_stmts_keep P)
    by (unfold progress_stmts_keep, update_progress_stmt; stmt_frame).
  assert (He : events_stmts_keep P)
    by (unfold events_stmts_keep, insert_event; stmt_frame).
  assert (Hiu : insert_user_keeps P)
    by (unfold insert_user_keeps, insert_user; stmt_frame).
  assert (Hip : insert_progress_keeps P)
    by (unfold insert_progress_keeps, insert_progress; stmt_frame).
  assert (Hc : cert_stmts_keep P).
  { constructor.
    - intros now uid ty code d0 a d' Hd Hs. unfold insert_certificate in Hs.
      destruct (existsb _ (certificates d0)) eqn:Hnew; [discriminate|].
      injection Hs as _ <-. unfold P. cbn. rewrite map_app. cbn.
      apply nodup_snoc; [exact Hd|].
      intros Hin. rewrite (code_present _ _ Hin) in Hnew. discriminate.
    - intros now code d0 a d' Hd Hs. unfold update_completed_stmt in Hs.
      injection Hs as _ <-. unfold P. cbn.
      now rewrite map_rewritten. }
  intros Hd. apply (keeps_exec_all P); [|exact Hd].
  apply keeps_exec; try assumption.
  intros u p pd a. now apply keeps_add_user.
Qed.

Lemma certificate_codes_stay_unique_witness :
  NoDup (map c_certificate_code
           (certificates
              (exec_all [(env0, CreateCertificate 1 "python-basics");
                         (env0, CreateCertificate 1 "loops")]
                        store_ann))).
Proof.
  apply (certificate_codes_stay_unique
           [(env0, CreateCertificate 1 "python-basics");
            (env0, CreateCertificate 1 "loops")] store_ann).
  simpl. constructor.
Defined.

Lemma keeps_add_user_progress_per_user (u p : string) (pd : option profile)
    (a : bool) :
  keeps progress_per_user (add_user u p pd a).
Proof.
  intros [f t n k e] [Hf Ht]. cbn in Hf, Ht.
  unfold add_user, log_event, insert_user, need_is_admin, insert_progress,
    insert_event.
  destruct pd as [[|kv pl]|]; run_method; rewrite fits_b2z; cbn.
  all: destruct t as [[o c]|]; split_conditions; cbn.
  all: try (split; [assumption | intros o' c' [= <- <-]; now apply (Ht o)]).
  all: try (split; [assumption | intros o' c' [=]]).
  all: split; [|intros o' c' [=]].
  all: unfold progress_per_user; cbn; rewrite !map_app; cbn; f_equal.
  all: first [exact Hf | exact (Ht o c eq_refl)].
Qed.

(** X24: one progress row per user: on a store where the progress rows are
    of the user ids, one each and in the same order, as on the empty store,
    so they are after any history of calls.  [add_user] inserts the two rows
    in one transaction and no call inserts or deletes either alone. *)
Theorem one_progress_row_per_user (h : list (env * call)) (d : db) :
  progress_per_user d -> progress_per_user (exec_all h d).
Proof.
  assert (Hu : users_stmts_keep progress_per_user).
  { constructor.
    - intros d0 Hd. unfold progress_per_user, alter_add_is_admin in *. cbn.
      now rewrite map_map.
    - unfold update_is_admin. intros b uid d0 a d' Hd Hs.
      unfold need_is_admin in Hs. destruct (is_admin_column d0); [|discriminate].
      injection Hs as _ <-. unfold progress_per_user in *. cbn.
      now rewrite map_rewritten.
    - unfold update_last_login_stmt. intros now uid d0 a d' Hd Hs.
      injection Hs as _ <-. unfold progress_per_user in *. cbn.
      now rewrite map_rewritten.
    - unfold update_profile_stmt.
      intros f1 f2 f3 f4 f5 f6 uid d0 a d' Hd Hs.
      injection Hs as _ <-. unfold progress_per_user in *. cbn.
      now rewrite map_rewritten.
    - unfold update_password_stmt. intros hh uid d0 a d' Hd Hs.
      injection Hs as _ <-. unfold progress_per_user in *. cbn.
      now rewrite map_rewritten. }
  assert (Hp : progress_stmts_keep progress_per_user).
  { intros now pts t c em uid d0 a d' Hd Hs.
    unfold update_progress_stmt in Hs. injection Hs as _ <-.
    unfold progress_per_user in *. cbn. now rewrite map_rewritten. }
  assert (He : events_stmts_keep progress_per_user).
  { intros now uid ty det d0 a d' Hd Hs. unfold insert_event in Hs.
    injection Hs as _ <-. exact Hd. }
  assert (Hc : cert_stmts_keep progress_per_user).
  { constructor.
    - intros now uid ty code d0 a d' Hd Hs. unfold insert_certificate in Hs.
      destruct (existsb _ (certificates d0)); [discriminate|].
      injection Hs as _ <-. exact Hd.
    - intros now code d0 a d' Hd Hs. unfold update_completed_stmt in Hs.
      injection Hs as _ <-. exact Hd. }
  apply (keeps_exec_all progress_per_user).
  apply keeps_exec; try assumption.
  apply keeps_add_user_progress_per_user.
Qed.

Lemma one_progress_row_per_user_witness :
  progress_per_user
    (exec_all [(env0, AddUser "ann" "h" None false);
               (env0, AddUser "bob" "k" None false)] empty_db).
Proof.
  apply (one_progress_row_per_user
           [(env0, AddUser "ann" "h" None false);
            (env0, AddUser "bob" "k" None false)] empty_db).
  reflexivity.
Defined.

(** ** The import of the legacy files *)

(** What [add_user] does when no transaction is open: none is left open,
    the users of before are kept, and when it returns the username has a
    row. *)
Lemma add_user_idle (w : world) (u p : string) :
  txn w = None ->
  txn (snd (add_user u p None false w)) = None /\
  (exists new,
     users (file (snd (add_user u p None false w)))
     = (users (file w) ++ new)%list) /\
  (forall v, fst (add_user u p None false w) = Ok v ->
             In u (map u_username (users (file (snd (add_user u p None false w)))))).
Proof.
  destruct w as [f t n k e]. cbn. intros ->.
  unfold add_user, log_event, insert_user, need_is_admin, insert_progress,
    insert_event.
  run_method. split_conditions; cbn.
  all: split; [reflexivity|]; split.
  all: try (exists []; now rewrite app_nil_r).
  all: try (intros v Hv; discriminate).
  all: try (intros v _;
            match goal with
            | H : existsb _ _ = true |- _ =>
                apply existsb_exists in H; destruct H as [x [Hx Hname]];
                apply String.eqb_eq in Hname; rewrite <- Hname;
                now apply in_map
            end).
  all: try (eexists; reflexivity).
  all: intros v _; rewrite map_app; apply in_or_app; right; now left.
Qed.

(** What [update_user_progress] does when no transaction is open: it
    returns, leaves none open, and leaves [users]. *)
Lemma update_user_progress_idle (w : world) (uid pts : Z)
    (t c em : list string) :
  txn w = None ->
  txn (snd (update_user_progress uid pts t c em w)) = None /\
  users (file (snd (update_user_progress uid pts t c em w))) = users (file w) /\
  exists b, fst (update_user_progress uid pts t c em w) = Ok b.
Proof.
  destruct w as [f tx n k e]. cbn. intros ->.
  unfold update_user_progress, update_progress_stmt. run_method.
  split_conditions; cbn; repeat split; eauto.
Qed.

Lemma migrate_data_from_json_loop :
  migrate_data_from_json =
  (e <- get_env ;;
   match users_json e with
   | Some users_data =>
       try_except (for_each users_data (import_user e) ;;; ret true)
                  (fun _ => ret false)
   | None => ret false
   end).
Proof. reflexivity. Qed.

Lemma import_user_idle (e : env) (entry : string * string) (w : world) :
  txn w = None ->
  txn (snd (import_user e entry w)) = None /\
  (exists new,
     users (file (snd (import_user e entry w))) = (users (file w) ++ new)%list) /\
  (forall v, fst (import_user e entry w) = Ok v ->
     In (fst entry) (map u_username (users (file (snd (import_user e entry w)))))).
Proof.
  intros Hidle. destruct entry as [username password].
  destruct (add_user_idle w username password Hidle) as [H1 [[new H2] H3]].
  unfold import_user, bind.
  destruct (add_user username password None false w) as [[r|ex] w1];
    cbn [fst snd] in *; cbv beta iota.
  - specialize (H3 r eq_refl).
    assert (Hdone : txn w1 = None /\
                    (exists new0, users (file w1) = (users (file w) ++ new0)%list) /\
                    In username (map u_username (users (file w1))))
      by (split; [assumption | split; [eauto | assumption]]).
    destruct r as [id|]; [|cbn; tauto].
    destruct (truthy id); [|cbn; tauto].
    destruct (progress_json e username) as [pf|]; [|cbn; tauto].
    destruct (update_user_progress_idle w1 id (get_or (pf_points pf) 0)
                (get_or (pf_completed_tutorials pf) [])
                (get_or (pf_completed_challenges pf) [])
                (get_or (pf_emoji_collection pf) []) H1) as [U1 [U2 [b U3]]].
    destruct (update_user_progress id _ _ _ _ w1) as [[rb|ex] w2];
      cbn [fst snd] in *; cbv beta iota.
    + unfold ret; cbn [fst snd]. rewrite U2.
      split; [assumption|]. split; [eauto|]. intros _ _. assumption.
    + discriminate.
  - split; [assumption|]. split; [eauto|]. discriminate.
Qed.

Lemma import_loop_idle (e : env) (l : list (string * string)) :
  forall w,
    txn w = None ->
    txn (snd (for_each l (import_user e) w)) = None /\
    (exists new,
       users (file (snd (for_each l (import_user e) w)))
       = (users (file w) ++ new)%list) /\
    (fst (for_each l (import_user e) w) = Ok tt ->
     forall entry, In entry l ->
       In (fst entry)
          (map u_username (users (file (snd (for_each l (import_user e) w)))))).
Proof.
  induction l as [|x l IH]; intros w Hidle.
  - cbn. split; [assumption|]. split; [exists []; now rewrite app_nil_r|].
    intros _ entry [].
  - destruct (import_user_idle e x w Hidle) as [H1 [[new H2] H3]].
    cbn [for_each]. unfold bind.
    destruct (import_user e x w) as [[r|ex] w1]; cbn in *.
    + destruct (IH w1 H1) as [I1 [[new' I2] I3]].
      split; [assumption|]. split.
      * exists (new ++ new')%list. now rewrite I2, H2, app_assoc.
      * intros Hok entry [<-|Hin]; [|now apply I3].
        rewrite I2, map_app. apply in_or_app. left. now apply (H3 r).
    + split; [assumption|]. split; [eauto|]. discriminate.
Qed.

Lemma migrate_data_from_json_idle (w : world) :
  txn w = None ->
  (exists b, fst (migrate_data_from_json w) = Ok b) /\
  txn (snd (migrate_data_from_json w)) = None /\
  (users_json (w_env w) = None -> migrate_data_from_json w = (Ok false, w)) /\
  (exists new,
     users (file (snd (migrate_data_from_json w))) = (users (file w) ++ new)%list) /\
  (forall users_data entry,
     users_json (w_env w) = Some users_data ->
     fst (migrate_data_from_json w) = Ok true ->
     In entry users_data ->
     In (fst entry)
        (map u_username (users (file (snd (migrate_data_from_json w)))))).
Proof.
  intros Hidle. rewrite migrate_data_from_json_loop.
  unfold bind, get_env, try_except, ret. cbv beta iota.
  destruct (users_json (w_env w)) as [users_data|] eqn:Hfile.
  - destruct (import_loop_idle (w_env w) users_data w Hidle)
      as [H1 [[new H2] H3]].
    destruct (for_each users_data (import_user (w_env w)) w)
      as [[r|ex] w1]; cbn [fst snd] in *; cbv beta iota; cbn [fst snd].
    + split; [eauto|]. split; [assumption|]. split; [discriminate|].
      split; [eauto|].
      intros users_data' entry [= <-] _ Hin. apply H3; [|assumption].
      now destruct r.
    + split; [eauto|]. split; [assumption|]. split; [discriminate|].
      split; [eauto|].
      intros users_data' entry _ Hok. discriminate.
  - cbn [fst snd]. split; [eauto|]. split; [assumption|].
    split; [reflexivity|].
    split; [exists []; now rewrite app_nil_r|]. discriminate.
Qed.

(** X25: [migrate_data_from_json] never raises and never touches a user
    that is there: it returns a boolean, [False] with the store as it was
    when there is no users file; the users of before are kept as they are,
    followed by the users added (an entry whose username exists is
    skipped); and when it returns [True] every username of the file has a
    user row. *)
Theorem migrate_data_from_json_imports (e : env) (d : db) :
  (exists b, fst (run e d migrate_data_from_json) = Ok b) /\
  (users_json e = None ->
   run e d migrate_data_from_json = (Ok false, d)) /\
  (exists new,
     users (snd (run e d migrate_data_from_json)) = (users d ++ new)%list) /\
  (forall users_data entry,
     users_json e = Some users_data ->
     fst (run e d migrate_data_from_json) = Ok true ->
     In entry users_data ->
     In (fst entry)
        (map u_username (users (snd (run e d migrate_data_from_json))))).
Proof.
  destruct (migrate_data_from_json_idle (mk_world d None 0 0 e) eq_refl)
    as [H1 [_ [H2 [H3 H4]]]].
  unfold run. cbn [w_env file] in *.
  destruct (migrate_data_from_json (mk_world d None 0 0 e)) as [r w1] eqn:Hm.
  cbn [fst snd] in *.
  split; [assumption|]. split.
  - intros Hnone. specialize (H2 Hnone). now inversion H2.
  - split; [assumption|]. intros users_data entry. apply H4.
Qed.

Lemma migrate_data_from_json_imports_witness :
  run env0 store_ann migrate_data_from_json = (Ok false, store_ann).
Proof.
  exact (proj1 (proj2 (migrate_data_from_json_imports env0 store_ann)) eq_refl).
Defined.

(** What [initialize_database] does when no transaction is open: none is
    left open, and the number of users is as before. *)
Lemma initialize_database_idle (w : world) :
  txn w = None ->
  txn (snd (initialize_database w)) = None /\
  w_env (snd (initialize_database w)) = w_env w /\
  List.length (users (file (snd (initialize_database w))))
  = List.length (users (file w)).
Proof.
  destruct w as [d t n k e]. cbn [txn w_env file]. intros ->.
  unfold initialize_database, _run_migrations,
    select_is_admin_probe, count_admins, select_first_user_id,
    update_is_admin, need_is_admin, create_table_if_not_exists,
    alter_add_is_admin.
  destruct d as [col us su ps sp es se cs sc].
  destruct col; run_method; rewrite ?Nat.eqb_refl; cbn.
  - destruct (Z.of_nat _ =? 0); cbn; [|auto].
    destruct us as [|u us]; simpl; [auto|].
    unfold bind_ints; simpl.
    destruct (fits_int64 (u_id u)); cbn; rewrite ?Nat.eqb_refl; cbn;
      rewrite ?length_map; auto.
  - destruct (Z.of_nat _ =? 0); cbn; rewrite ?length_map; [|auto].
    destruct us as [|u us]; simpl; [auto|].
    unfold bind_ints; simpl.
    destruct (fits_int64 (u_id u)); cbn; rewrite ?Nat.eqb_refl; cbn;
      rewrite ?length_map; auto.
Qed.

(** X26: [migrate_from_json_if_needed] never raises, and imports only into
    a store without users: after it the store is the one
    [initialize_database] leaves whenever there was a user, or there is no
    users file; in every case the users [initialize_database] leaves are
    kept as they are, followed by the imported ones. *)
Theorem migrate_from_json_if_needed_guard (e : env) (d : db) :
  let d1 := snd (run e d initialize_database) in
  fst (run e d migrate_from_json_if_needed) = Ok tt /\
  (users d <> [] -> snd (run e d migrate_from_json_if_needed) = d1) /\
  (users_json e = None -> snd (run e d migrate_from_json_if_needed) = d1) /\
  (exists new,
     users (snd (run e d migrate_from_json_if_needed)) = (users d1 ++ new)%list).
Proof.
  cbv zeta. unfold run at 2 4 6.
  destruct (initialize_database_idle (mk_world d None 0 0 e) eq_refl)
    as [I1 [I2 I3]].
  unfold run, migrate_from_json_if_needed, try_except, bind.
  destruct (initialize_database (mk_world d None 0 0 e)) as [[[]|ex] w1].
  - cbn [fst snd file w_env] in *.
    unfold connect, try_finally, execute_query, bind_ints, view,
      count_users, ret, bind.
    cbn [forallb]. cbv beta iota. cbn [txn file next_conn fst snd].
    rewrite !I1.
    set (w2 := mk_world (file w1) None (S (next_conn w1)) (ticks w1) (w_env w1)).
    assert (W2 : txn w2 = None) by reflexivity.
    destruct (Z.of_nat (List.length (users (file w1))) =? 0) eqn:Hcount.
    + destruct (migrate_data_from_json_idle w2 W2)
        as [[b M1] [M2 [M3 [M4 _]]]].
      cbn [w_env file w2] in M3, M4.
      destruct (migrate_data_from_json w2) as [r w3].
      cbn [fst snd] in *. subst r. cbv beta iota.
      unfold disconnect. rewrite M2. cbn [fst snd].
      split; [reflexivity|]. split.
      * intros Hne. apply Z.eqb_eq in Hcount. rewrite I3 in Hcount.
        destruct (users d); [congruence|discriminate].
      * split; [|assumption].
        intros Hnone. rewrite I2 in M3. specialize (M3 Hnone).
        now inversion M3.
    + cbv beta iota. unfold disconnect. rewrite W2. cbn [w2 fst snd file].
      split; [reflexivity|]. split; [reflexivity|]. split; [reflexivity|].
      exists []. now rewrite app_nil_r.
  - cbn [fst snd]. unfold ret. cbn [fst snd].
    split; [reflexivity|]. split; [reflexivity|]. split; [reflexivity|].
    exists []. now rewrite app_nil_r.
Qed.

Lemma migrate_from_json_if_needed_guard_witness :
  snd (run env0 store_ann migrate_from_json_if_needed)
  = snd (run env0 store_ann initialize_database).
Proof.
  refine (proj1 (proj2 (migrate_from_json_if_needed_guard env0 store_ann)) _).
  vm_compute. discriminate.
Defined.

(** ** Transactions are closed when a method is left *)

Ltac split_matches :=
  repeat (cbn;
          first
            [ progress (rewrite ?Nat.eqb_refl, ?eqb_succ_false)
            | reflexivity
            | match goal with
              | |- context [fits_int64 ?x] => destruct (fits_int64 x) eqn:?
              | |- context [fetchone ?l] => destruct (fetchone l) eqn:?
              | |- context [match ?x with _ => _ end] =>
                  lazymatch x with
                  | context [match _ with _ => _ end] => fail
                  | _ => destruct x eqn:?
                  end
              end ]).

Lemma log_event_releases (uid : Z) (ty : string) (det : option string) (w : world) :
  txn w = None -> txn (snd (log_event uid ty det w)) = None.
Proof.
  destruct w as [f t n k e]. cbn. intros ->.
  unfold log_event. run_method. split_matches.
Qed.

Lemma add_user_releases (u p : string) (pd : option profile) (a : bool) (w : world) :
  txn w = None -> txn (snd (add_user u p pd a w)) = None.
Proof.
  destruct w as [f t n k e]. cbn. intros ->.
  unfold add_user, log_event.
  destruct pd as [[|kv pl]|]; run_method; rewrite fits_b2z; cbn.
  all: split_matches.
Qed.

Ltac releases :=
  let f := fresh "f" in let t := fresh "t" in let n := fresh "n" in
  let k := fresh "k" in let e := fresh "e" in
  intros [f t n k e]; cbn [txn]; intros ->; run_method; split_matches.

Lemma get_user_releases (u : string) (w : world) :
  txn w = None -> txn (snd (get_user u w)) = None.
Proof. revert w. unfold get_user. releases. Qed.

Lemma update_last_login_releases (uid : Z) (w : world) :
  txn w = None -> txn (snd (update_last_login uid w)) = None.
Proof. revert w. unfold update_last_login. releases. Qed.

Lemma get_user_progress_releases (uid : Z) (w : world) :
  txn w = None -> txn (snd (get_user_progress uid w)) = None.
Proof. revert w. unfold get_user_progress, json_loads. releases. Qed.

Lemma get_user_events_releases (uid limit : Z) (w : world) :
  txn w = None -> txn (snd (get_user_events uid limit w)) = None.
Proof. revert w. unfold get_user_events. releases. Qed.

Lemma create_certificate_releases (uid : Z) (ty : string) (w : world) :
  txn w = None -> txn (snd (create_certificate uid ty w)) = None.
Proof. revert w. unfold create_certificate, log_event. releases. Qed.

Lemma complete_certificate_releases (code : string) (w : world) :
  txn w = None -> txn (snd (complete_certificate code w)) = None.
Proof. revert w. unfold complete_certificate, log_event. releases. Qed.

Lemma get_user_certificates_releases (uid : Z) (w : world) :
  txn w = None -> txn (snd (get_user_certificates uid w)) = None.
Proof. revert w. unfold get_user_certificates. releases. Qed.

Lemma verify_certificate_releases (code : string) (w : world) :
  txn w = None -> txn (snd (verify_certificate code w)) = None.
Proof. revert w. unfold verify_certificate. releases. Qed.

Lemma get_all_users_releases (w : world) :
  txn w = None -> txn (snd (get_all_users w)) = None.
Proof. revert w. unfold get_all_users. releases. Qed.

Lemma update_user_profile_releases (uid : Z) (pd : profile) (w : world) :
  txn w = None -> txn (snd (update_user_profile uid pd w)) = None.
Proof. revert w. unfold update_user_profile. releases. Qed.

Lemma set_admin_status_releases (uid : Z) (a : bool) (w : world) :
  txn w = None -> txn (snd (set_admin_status uid a w)) = None.
Proof. revert w. unfold set_admin_status. releases. Qed.

Lemma get_user_by_id_releases (uid : Z) (w : world) :
  txn w = None -> txn (snd (get_user_by_id uid w)) = None.
Proof. revert w. unfold get_user_by_id. releases. Qed.

Lemma reset_user_password_releases (uid : Z) (h : string) (w : world) :
  txn w = None -> txn (snd (reset_user_password uid h w)) = None.
Proof. revert w. unfold reset_user_password, log_event. releases. Qed.

Lemma migrate_from_json_if_needed_releases (w : world) :
  txn w = None -> txn (snd (migrate_from_json_if_needed w)) = None.
Proof.
  intros Hidle.
  destruct (initialize_database_idle w Hidle) as [I1 _].
  unfold migrate_from_json_if_needed, try_except, bind.
  destruct (initialize_database w) as [[[]|ex] w1]; cbn [fst snd] in *;
    [|exact I1].
  unfold connect, try_finally, execute_query, bind_ints, view,
    count_users, ret, bind.
  cbn [forallb]. cbv beta iota. cbn [txn file next_conn fst snd].
  rewrite !I1.
  set (w2 := mk_world (file w1) None (S (next_conn w1)) (ticks w1) (w_env w1)).
  destruct (Z.of_nat (List.length (users (file w1))) =? 0).
  - destruct (migrate_data_from_json_idle w2 eq_refl) as [[b M1] [M2 _]].
    destruct (migrate_data_from_json w2) as [r w3].
    cbn [fst snd] in *. subst r. cbv beta iota.
    unfold disconnect. rewrite M2. exact M2.
  - reflexivity.
Qed.

(** X27: no call leaves a transaction open.  A call that starts while no
    transaction is open ends with none open, whatever it returns or raises:
    every write is committed or rolled back by the time the method is left,
    so the next call does not find the database locked. *)
Theorem calls_leave_no_transaction (c : call) (w : world) :
  txn w = None -> txn (perform c w) = None.
Proof.
  intros Hidle. destruct c; unfold perform, final.
  - now apply add_user_releases.
  - now apply get_user_releases.
  - now apply update_last_login_releases.
  - now apply get_user_progress_releases.
  - now apply (update_user_progress_idle w).
  - now apply log_event_releases.
  - now apply get_user_events_releases.
  - now apply create_certificate_releases.
  - now apply complete_certificate_releases.
  - now apply get_user_certificates_releases.
  - now apply verify_certificate_releases.
  - now apply get_all_users_releases.
  - now apply update_user_profile_releases.
  - now apply set_admin_status_releases.
  - now apply get_user_by_id_releases.
  - now apply reset_user_password_releases.
  - now apply initialize_database_idle.
  - now apply migrate_data_from_json_idle.
  - now apply migrate_from_json_if_needed_releases.
Qed.

Lemma calls_leave_no_transaction_witness :
  txn (perform (AddUser "ann" "h" None false) (mk_world empty_db None 0 0 env0))
  = None.
Proof.
  exact (calls_leave_no_transaction (AddUser "ann" "h" None false)
           (mk_world empty_db None 0 0 env0) eq_refl).
Defined.
